(** * Polling the Insights request logs: a model of the audit-trail notebook

    The notebook "Requesting log details using the Insights API" polls the
    Insights log store until the logs of two valuation calls are indexed
    ([insights_log_requests]), fetches the request and response body of every
    log ([request_response_reqs]) and flattens them into one record per log
    ([request_response_bodies]).

    The remote platform, the wall clock and the random generator are the
    environment.  A computation is a function from the history of the
    interactions so far to an outcome and the events it adds; the environment
    answers every interaction as a function of the history, so that every
    behaviour of the remote platform is covered by quantifying over the
    environment. *)

From Stdlib Require Import String Ascii ZArith QArith Qround List Bool Lia.
Import ListNotations.

Local Open Scope Z_scope.

(** ** Python values *)

(** The result of [json.loads]: Python's None, bool, int, float, str, list and
    dict (with its keys in insertion order). *)
#[warnings="-register-all"]
Inductive json : Type :=
| JNull
| JBool (b : bool)
| JInt (n : Z)
| JFloat (q : Q)
| JStr (s : string)
| JList (items : list json)
| JDict (fields : list (string * json)).

(** The exceptions that reach the notebook's code.  [ApiException] is
    [finbourne_insights.ApiException], raised by the generated client for every
    HTTP error status (404 while the bodies are not indexed yet); [OtherError]
    stands for every other class (for instance a transport error of the HTTP
    library) and carries the name of its class. *)
Inductive PyExc : Type :=
| ApiException (status : Z) (reason : string)
| KeyError (key : string)
| TypeError (message : string)
| JSONDecodeError (message : string)
| OtherError (class_name : string) (message : string).

Definition exc_class (e : PyExc) : string :=
  match e with
  | ApiException _ _ => "ApiException"
  | KeyError _ => "KeyError"
  | TypeError _ => "TypeError"
  | JSONDecodeError _ => "JSONDecodeError"
  | OtherError c _ => c
  end%string.

(** [isinstance(e, finbourne_insights.ApiException)] *)
Definition is_ApiException (e : PyExc) : bool :=
  match e with
  | ApiException _ _ => true
  | _ => false
  end.

(** The "not found" answer of the platform: an [ApiException] with HTTP
    status 404. *)
Definition is_not_found (e : PyExc) : bool :=
  match e with
  | ApiException status _ => status =? 404
  | _ => false
  end.

Fixpoint dict_get (fields : list (string * json)) (key : string) : option json :=
  match fields with
  | [] => None
  | (k, v) :: rest => if String.eqb k key then Some v else dict_get rest key
  end.

(** [obj[key]] with a string key: a dict looks the key up and raises KeyError
    when it is missing; no other JSON value can be indexed by a string. *)
Definition getitem (obj : json) (key : string) : PyExc + json :=
  match obj with
  | JDict fields =>
      match dict_get fields key with
      | Some v => inr v
      | None => inl (KeyError key)
      end
  | JList _ => inl (TypeError "list indices must be integers or slices, not str")
  | JStr _ => inl (TypeError "string indices must be integers")
  | _ => inl (TypeError "object is not subscriptable")
  end.

(** ** The objects of the Insights client *)

(** [finbourne_insights.models.RequestLog], with the attributes the notebook
    reads. *)
Record RequestLog : Type := mkRequestLog {
  id : string;
  timestamp : string;
  outcome : string;
  http_status_code : Z
}.

(** [ResourceListOfRequestLog]: the answer of [list_request_logs]. *)
Record ResourceListOfRequestLog : Type := mkResourceList {
  values : list RequestLog
}.

(** The answers of [get_request] and [get_response]; the notebook reads their
    [body] only. *)
Record Request : Type := mkRequest { request_text : string }.
Record Response : Type := mkResponse { response_text : string }.

(** ** Events, histories and computations *)

Inductive Event : Type :=
| DatetimeNow (now : Z)
| ListRequestLogs (filter : string) (reply : PyExc + ResourceListOfRequestLog)
| GetRequest (log_id : string) (reply : PyExc + Request)
| GetResponse (log_id : string) (reply : PyExc + Response)
| RandomUniform (a b : Z) (drawn : Q)
| TimeSleep (seconds : Q).

Definition Trace : Type := list Event.

(** The environment.  Time is the naive local time of [datetime.now()], in
    microseconds since 1970-01-01T00:00:00; the seconds that
    [random.uniform] draws are rationals.  [json.loads] is taken as given: a
    text is parsed into a value or raises. *)
Record Platform : Type := mkPlatform {
  datetime_now : Trace -> Z;
  list_request_logs : Trace -> string -> PyExc + ResourceListOfRequestLog;
  get_request : Trace -> string -> PyExc + Request;
  get_response : Trace -> string -> PyExc + Response;
  random_uniform : Trace -> Z -> Z -> Q;
  json_loads : string -> PyExc + json
}.

Inductive Outcome (A : Type) : Type :=
| Returned (a : A)
| Raised (e : PyExc)
| Diverged.

Arguments Returned {A} a.
Arguments Raised {A} e.
Arguments Diverged {A}.

(** A computation receives the history and gives its outcome and the events it
    added to the history. *)
Definition M (A : Type) : Type := Trace -> Outcome A * Trace.

Definition pure {A} (a : A) : M A := fun _ => (Returned a, []).

Definition raise {A} (e : PyExc) : M A := fun _ => (Raised e, []).

Definition diverge {A} : M A := fun _ => (Diverged, []).

Definition bind {A B} (m : M A) (f : A -> M B) : M B :=
  fun h =>
    match m h with
    | (Returned a, t1) => let (o, t2) := f a (h ++ t1) in (o, t1 ++ t2)
    | (Raised e, t1) => (Raised e, t1)
    | (Diverged, t1) => (Diverged, t1)
    end.

(** [try: m  except: ...]: the exception of [m] becomes a value. *)
Definition caught {A} (m : M A) : M (PyExc + A) :=
  fun h =>
    match m h with
    | (Returned a, t) => (Returned (inr a), t)
    | (Raised e, t) => (Returned (inl e), t)
    | (Diverged, t) => (Diverged, t)
    end.

(** A pure step that may raise. *)
Definition lift {A} (r : PyExc + A) : M A :=
  match r with
  | inr a => pure a
  | inl e => raise e
  end.

(** An interaction: the environment's answer is recorded in the history. *)
Definition ask {A} (answer : Trace -> A) (event : A -> Event) : M A :=
  fun h => let a := answer h in (Returned a, [event a]).

Declare Scope py_scope.
Delimit Scope py_scope with py.
Notation "x <- m ;; k" := (bind m (fun x => k))
  (at level 100, m at next level, right associativity) : py_scope.
Notation "m ;; k" := (bind m (fun _ => k))
  (at level 100, right associativity) : py_scope.
Local Open Scope py_scope.

(** ** datetime *)

(** Days since 1970-01-01 to (year, month, day) of the proleptic Gregorian
    calendar, which is the calendar of Python's [datetime]. *)
Definition civil_from_days (days : Z) : Z * Z * Z :=
  let z := days + 719468 in
  let era := z / 146097 in
  let doe := z - era * 146097 in
  let yoe := (doe - doe / 1460 + doe / 36524 - doe / 146096) / 365 in
  let doy := doe - (365 * yoe + yoe / 4 - yoe / 100) in
  let mp := (5 * doy + 2) / 153 in
  let d := doy - (153 * mp + 2) / 5 + 1 in
  let m := if mp <? 10 then mp + 3 else mp - 9 in
  let y := yoe + era * 400 + (if m <=? 2 then 1 else 0) in
  (y, m, d).

Definition digit (n : Z) : string :=
  String (ascii_of_nat (48 + Z.to_nat (n mod 10))) EmptyString.

Definition pad2 (n : Z) : string := (digit (n / 10) ++ digit n)%string.

Definition pad4 (n : Z) : string := (pad2 (n / 100) ++ pad2 n)%string.

(** [timedelta(minutes=m)], in microseconds. *)
Definition timedelta_minutes (m : Z) : Z := m * 60 * 1000000.

(** [dt.strftime("%Y-%m-%dT%H:%M:%S")], for the years 1000 to 9999 (where %Y
    has four digits on every platform). *)
Definition strftime (dt : Z) : string :=
  let secs := dt / 1000000 in
  let '(y, m, d) := civil_from_days (secs / 86400) in
  let sod := secs mod 86400 in
  (pad4 y ++ "-" ++ pad2 m ++ "-" ++ pad2 d ++ "T" ++
   pad2 (sod / 3600) ++ ":" ++ pad2 (sod / 60 mod 60) ++ ":" ++ pad2 (sod mod 60))%string.

(** ** The backoff package

    The notebook decorates its two polling functions with
    [backoff.on_predicate] and [backoff.on_exception].  The package is a
    dependency of the notebook; its retry loops ([retry_predicate] and
    [retry_exception] of [backoff._sync]) are embedded here with the arguments
    the notebook leaves at their defaults: [jitter=full_jitter], no [max_time],
    no [giveup] test, no handlers.  The loops are [while True] loops; the model
    runs them on fuel and [on_predicate] and [on_exception] give them
    [max_tries] units of it, which is shown below to be enough.  The package
    reads the clock for its own account (once before the loop and once in
    every turn, for [max_time], which the notebook does not set); these
    readings decide nothing and are left out of the traces, whose
    [DatetimeNow] events are the readings of the notebook's own code. *)

Section Notebook.

Variable P : Platform.

(** The n-th value of the generator [backoff.expo(base=2, factor=1)]:
    [factor * base ** n]. *)
Definition expo (n : nat) : Z := 1 * 2 ^ Z.of_nat n.

(** [backoff.full_jitter(value)]: [random.uniform(0, value)]. *)
Definition full_jitter (value : Z) : M Q :=
  ask (fun h => random_uniform P h 0 value) (RandomUniform 0 value).

(** [_next_wait]: the next value of the wait generator, jittered. *)
Definition next_wait (n : nat) : M Q :=
  let value := expo n in
  full_jitter value.

Definition time_sleep (seconds : Q) : M unit :=
  fun _ => (Returned tt, [TimeSleep seconds]).

(** The loop of [backoff._sync.retry_predicate]; [tries] counts the calls
    made and [n] is the state of the wait generator. *)
Fixpoint retry_predicate {A} (target : M A) (predicate : A -> bool)
    (max_tries : nat) (fuel tries n : nat) : M A :=
  match fuel with
  | O => diverge
  | S fuel' =>
      let tries := S tries in
      ret <- target ;;
      if predicate ret then
        if Nat.eqb tries max_tries then pure ret
        else
          seconds <- next_wait n ;;
          time_sleep seconds ;;
          retry_predicate target predicate max_tries fuel' tries (S n)
      else pure ret
  end.

Definition on_predicate {A} (predicate : A -> bool) (max_tries : nat)
    (target : M A) : M A :=
  retry_predicate target predicate max_tries max_tries 0 0.

(** The loop of [backoff._sync.retry_exception]: an exception of the class
    [exception] is retried until [max_tries] calls were made, and then
    raised again; every other exception leaves the loop at once. *)
Fixpoint retry_exception {A} (target : M A) (exception : PyExc -> bool)
    (max_tries : nat) (fuel tries n : nat) : M A :=
  match fuel with
  | O => diverge
  | S fuel' =>
      let tries := S tries in
      r <- caught target ;;
      match r with
      | inr ret => pure ret
      | inl e =>
          if exception e then
            if Nat.eqb tries max_tries then raise e
            else
              seconds <- next_wait n ;;
              time_sleep seconds ;;
              retry_exception target exception max_tries fuel' tries (S n)
          else raise e
      end
  end.

Definition on_exception {A} (exception : PyExc -> bool) (max_tries : nat)
    (target : M A) : M A :=
  retry_exception target exception max_tries max_tries 0 0.

(** ** The notebook *)

(** The global [correlation_id], set once when the session starts. *)
Variable correlation_id : string.

Definition now : M Z := ask (datetime_now P) DatetimeNow.

(** The f-string of [insights_log_requests]. *)
Definition filter_text (timestamp_lower timestamp_upper operation : string)
    : string :=
  ("timestamp gt " ++ timestamp_lower ++ " and timestamp lt " ++
   timestamp_upper ++ " and operation eq '" ++ operation ++
   "' and CorrelationId eq '" ++ correlation_id ++ "' ")%string.

(** The body of [insights_log_requests], before it is decorated.  Times are
  integers here: the body is that of the code as long as the two times it
  formats are within the years 1000 to 9999 (outside the years 1 to 9999 the
  subtraction raises OverflowError in Python). *)
Definition insights_log_requests_body (operation : string)
    (timestamp_diff_lower timestamp_diff_upper : Z)
    : M ResourceListOfRequestLog :=
  now_lower <- now ;;
  let timestamp_lower :=
    strftime (now_lower - timedelta_minutes timestamp_diff_lower) in
  now_upper <- now ;;
  let timestamp_upper :=
    strftime (now_upper - timedelta_minutes timestamp_diff_upper) in
  let filter := filter_text timestamp_lower timestamp_upper operation in
  reply <- ask (fun h => list_request_logs P h filter)
               (ListRequestLogs filter) ;;
  lift reply.

(** [lambda x: len(x.values) < 2] *)
Definition too_few (x : ResourceListOfRequestLog) : bool :=
  (length (values x) <? 2)%nat.

Definition insights_log_requests (operation : string)
    (timestamp_diff_lower timestamp_diff_upper : Z)
    : M ResourceListOfRequestLog :=
  on_predicate too_few 5
    (insights_log_requests_body operation timestamp_diff_lower
       timestamp_diff_upper).

(** The body of [request_response_reqs], before it is decorated. *)
Definition request_response_reqs_body (log_id : string)
    : M (Request * Response) :=
  request <- (reply <- ask (fun h => get_request P h log_id)
                           (GetRequest log_id) ;; lift reply) ;;
  response <- (reply <- ask (fun h => get_response P h log_id)
                            (GetResponse log_id) ;; lift reply) ;;
  pure (request, response).

Definition request_response_reqs (log_id : string)
    : M (Request * Response) :=
  on_exception is_ApiException 5 (request_response_reqs_body log_id).

(** One element of [rr_bodies]: the dict the loop appends. *)
Record ResultRecord : Type := mkResultRecord {
  rr_id : string;
  rr_timestamp : string;
  rr_outcome : string;
  rr_error : json;
  rr_error_details : json;
  rr_request_body : json;
  rr_response_body : json
}.

(** The end of the loop body of [request_response_bodies], from
    [error = None] to the dict that is appended: no interaction, but the
    two subscripts may raise. *)
Definition classify (row : RequestLog) (request_body response_body : json)
    : PyExc + ResultRecord :=
  let record error error_details :=
    mkResultRecord (id row) (timestamp row) (outcome row)
      error error_details request_body response_body in
  if http_status_code row =? 400 then
    match getitem response_body "name" with
    | inl e => inl e
    | inr error =>
        match getitem response_body "errorDetails" with
        | inl e => inl e
        | inr error_details => inr (record error error_details)
        end
    end
  else inr (record JNull JNull).

(** The loop of [request_response_bodies] over the rows that are left. *)
Fixpoint request_response_bodies_loop (rows : list RequestLog)
    (rr_bodies : list ResultRecord) : M (list ResultRecord) :=
  match rows with
  | [] => pure rr_bodies
  | row :: rest =>
      req_resp <- request_response_reqs (id row) ;;
      request_body <- lift (json_loads P (request_text (fst req_resp))) ;;
      response_body <- lift (json_loads P (response_text (snd req_resp))) ;;
      rr <- lift (classify row request_body response_body) ;;
      request_response_bodies_loop rest (rr_bodies ++ [rr])
  end.

Definition request_response_bodies (req_logs : ResourceListOfRequestLog)
    : M (list ResultRecord) :=
  request_response_bodies_loop (values req_logs) [].

(** The two cells that call these functions:
    [i_response = insights_log_requests("GetValuationOfWeightedInstruments", 5, 0)]
    and [request_response_bodies(i_response)], which fills the data
    frame. *)
Definition i_response : M ResourceListOfRequestLog :=
  insights_log_requests "GetValuationOfWeightedInstruments" 5 0.

Definition request_bodies : M (list ResultRecord) :=
  req_logs <- i_response ;;
  request_response_bodies req_logs.

End Notebook.

(** ** Traces and the platform *)

(** The event records what the platform answers after the history [h]. *)
Definition answers (P : Platform) (h : Trace) (e : Event) : Prop :=
  match e with
  | DatetimeNow t => t = datetime_now P h
  | ListRequestLogs f r => r = list_request_logs P h f
  | GetRequest i r => r = get_request P h i
  | GetResponse i r => r = get_response P h i
  | RandomUniform a b x => x = random_uniform P h a b
  | TimeSleep _ => True
  end.

(** Every event of the trace [tr], which follows the history [h], records the
    answer of the platform at its place. *)
Fixpoint answered_by (P : Platform) (h tr : Trace) : Prop :=
  match tr with
  | [] => True
  | e :: rest => answers P h e /\ answered_by P (h ++ [e]) rest
  end.

Definition faithful {A} (P : Platform) (m : M A) : Prop :=
  forall h, answered_by P h (snd (m h)).

(** ** Traces of the polling loops *)

(** One call of the undecorated [insights_log_requests]: the two readings of
    the clock and the answer of the log store. *)
Record Attempt : Type := mkAttempt {
  now_lower : Z;
  now_upper : Z;
  reply : PyExc + ResourceListOfRequestLog
}.

Definition outcome_of {A} (r : PyExc + A) : Outcome A :=
  match r with
  | inr a => Returned a
  | inl e => Raised e
  end.

Section PollingTraces.

Variable correlation_id operation : string.
Variable timestamp_diff_lower timestamp_diff_upper : Z.

Definition attempt_filter (a : Attempt) : string :=
  filter_text correlation_id
    (strftime (now_lower a - timedelta_minutes timestamp_diff_lower))
    (strftime (now_upper a - timedelta_minutes timestamp_diff_upper))
    operation.

Definition attempt_events (a : Attempt) : Trace :=
  [DatetimeNow (now_lower a); DatetimeNow (now_upper a);
   ListRequestLogs (attempt_filter a) (reply a)].

(** A wait of the backoff loop: the jitter is drawn between 0 and the n-th
    value of [expo], and slept. *)
Definition pause_events (n : nat) (seconds : Q) : Trace :=
  [RandomUniform 0 (expo n) seconds; TimeSleep seconds].

(** The trace of a polling loop whose wait generator is in state [n]: the
    attempts that were retried, each with the wait after it, and the last
    attempt. *)
Fixpoint polling_events (n : nat) (retried : list (Attempt * Q))
    (last : Attempt) : Trace :=
  match retried with
  | [] => attempt_events last
  | (a, seconds) :: rest =>
      attempt_events a ++ pause_events n seconds ++
      polling_events (S n) rest last
  end.

End PollingTraces.

(** What the environment answers to one call of the undecorated function. *)
Definition observe (P : Platform) (correlation_id operation : string)
    (lower upper : Z) (h : Trace) : Attempt :=
  let t1 := datetime_now P h in
  let h1 := h ++ [DatetimeNow t1] in
  let t2 := datetime_now P h1 in
  let h2 := h1 ++ [DatetimeNow t2] in
  let filter :=
    filter_text correlation_id (strftime (t1 - timedelta_minutes lower))
      (strftime (t2 - timedelta_minutes upper)) operation in
  mkAttempt t1 t2 (list_request_logs P h2 filter).

(** The answers of the log store, in the order of the calls. *)
Fixpoint search_replies (tr : Trace)
    : list (PyExc + ResourceListOfRequestLog) :=
  match tr with
  | [] => []
  | ListRequestLogs _ r :: rest => r :: search_replies rest
  | _ :: rest => search_replies rest
  end.

(** The filter expressions sent to the log store, in the order of the
    calls. *)
Fixpoint search_filters (tr : Trace) : list string :=
  match tr with
  | [] => []
  | ListRequestLogs f _ :: rest => f :: search_filters rest
  | _ :: rest => search_filters rest
  end.

(** The log store answered, with fewer than two entries. *)
Definition short_reply (r : PyExc + ResourceListOfRequestLog) : bool :=
  match r with
  | inr x => too_few x
  | inl _ => false
  end.

(** The readings of the clock, in order. *)
Fixpoint clock_reads (tr : Trace) : list Z :=
  match tr with
  | [] => []
  | DatetimeNow t :: rest => t :: clock_reads rest
  | _ :: rest => clock_reads rest
  end.

(** Consecutive readings, two by two. *)
Fixpoint pairs (l : list Z) : list (Z * Z) :=
  match l with
  | a :: b :: rest => (a, b) :: pairs rest
  | _ => []
  end.

Definition is_search (e : Event) : bool :=
  match e with ListRequestLogs _ _ => true | _ => false end.

Definition is_get_request (e : Event) : bool :=
  match e with GetRequest _ _ => true | _ => false end.

(** The waits of a trace: for every [time.sleep], the number of calls (the
    events that satisfy [call]) made before it and the seconds slept. *)
Fixpoint sleeps_after (call : Event -> bool) (calls : nat) (tr : Trace)
    : list (nat * Q) :=
  match tr with
  | [] => []
  | TimeSleep s :: rest => (calls, s) :: sleeps_after call calls rest
  | e :: rest => sleeps_after call (if call e then S calls else calls) rest
  end.

(** The draws of the jitter: the bounds given to [random.uniform] and the
    value drawn. *)
Fixpoint jitter_draws (tr : Trace) : list (Z * Z * Q) :=
  match tr with
  | [] => []
  | RandomUniform a b x :: rest => (a, b, x) :: jitter_draws rest
  | _ :: rest => jitter_draws rest
  end.

(** ** Traces of the retry loop of [request_response_reqs] *)

(** One call of the undecorated [request_response_reqs]: [get_request] raised,
    or it answered and [get_response] raised, or both answered. *)
Inductive DetailAttempt : Type :=
| RequestFailed (e : PyExc)
| ResponseFailed (request : Request) (e : PyExc)
| BothFetched (request : Request) (response : Response).

Definition detail_events (log_id : string) (a : DetailAttempt) : Trace :=
  match a with
  | RequestFailed e => [GetRequest log_id (inl e)]
  | ResponseFailed request e =>
      [GetRequest log_id (inr request); GetResponse log_id (inl e)]
  | BothFetched request response =>
      [GetRequest log_id (inr request); GetResponse log_id (inr response)]
  end.

Definition detail_outcome (a : DetailAttempt) : Outcome (Request * Response) :=
  match a with
  | RequestFailed e => Raised e
  | ResponseFailed _ e => Raised e
  | BothFetched request response => Returned (request, response)
  end.

(** The attempt failed and its exception satisfies [test]. *)
Definition failed_with (test : PyExc -> bool) (a : DetailAttempt) : bool :=
  match a with
  | RequestFailed e => test e
  | ResponseFailed _ e => test e
  | BothFetched _ _ => false
  end.

(** The trace of the retry loop whose wait generator is in state [n]. *)
Fixpoint fetching_events (log_id : string) (n : nat)
    (retried : list (DetailAttempt * Q)) (last : DetailAttempt) : Trace :=
  match retried with
  | [] => detail_events log_id last
  | (a, seconds) :: rest =>
      detail_events log_id a ++ pause_events n seconds ++
      fetching_events log_id (S n) rest last
  end.

(** The attempts of a trace, in order; [pending] is the answer of a
    [get_request] whose [get_response] has not been seen yet. *)
Fixpoint detail_attempts_from (pending : option Request) (tr : Trace)
    : list DetailAttempt :=
  match tr with
  | [] => []
  | GetRequest _ (inl e) :: rest =>
      RequestFailed e :: detail_attempts_from None rest
  | GetRequest _ (inr request) :: rest =>
      detail_attempts_from (Some request) rest
  | GetResponse _ r :: rest =>
      match pending with
      | Some request =>
          match r with
          | inl e => ResponseFailed request e
          | inr response => BothFetched request response
          end :: detail_attempts_from None rest
      | None => detail_attempts_from None rest
      end
  | _ :: rest => detail_attempts_from pending rest
  end.

Definition detail_attempts (tr : Trace) : list DetailAttempt :=
  detail_attempts_from None tr.

(** The calls of [get_request] and of [get_response], in order. *)
Fixpoint request_calls (tr : Trace) : list string :=
  match tr with
  | [] => []
  | GetRequest i _ :: rest => i :: request_calls rest
  | _ :: rest => request_calls rest
  end.

Fixpoint response_calls (tr : Trace) : list string :=
  match tr with
  | [] => []
  | GetResponse i _ :: rest => i :: response_calls rest
  | _ :: rest => response_calls rest
  end.

(** ** The records of [request_response_bodies] *)

(** An HTTP status of the client-error class. *)
Definition is_client_error (status : Z) : bool :=
  (400 <=? status) && (status <? 500).

(** The response body is an object with the two keys that the loop body
    reads when the status is 400. *)
Definition has_error_fields (response_body : json) : bool :=
  match response_body with
  | JDict fields =>
      match dict_get fields "name", dict_get fields "errorDetails" with
      | Some _, Some _ => true
      | _, _ => false
      end
  | _ => false
  end.

(** The record of a row: what [classify] gives for the row and the two bodies
    that the record carries. *)
Definition record_of (row : RequestLog) (r : ResultRecord) : Prop :=
  classify row (rr_request_body r) (rr_response_body r) = inr r.

(** ** A scripted platform

    A platform for the examples: the log store answers its n-th call with the
    n-th element of a script, the bodies of a log are served by scripts that
    are indexed by the log and by the number of earlier calls for that log,
    the jitter draws the middle of its interval, every call to the platform
    takes 150 ms and a sleep takes the time asked for. *)
Module Mock.

Definition is_request_of (log_id : string) (e : Event) : bool :=
  match e with GetRequest i _ => String.eqb i log_id | _ => false end.

Definition is_response_of (log_id : string) (e : Event) : bool :=
  match e with GetResponse i _ => String.eqb i log_id | _ => false end.

Definition count (f : Event -> bool) (h : Trace) : nat :=
  length (filter f h).

Definition cost (e : Event) : Z :=
  match e with
  | TimeSleep s => Qfloor (s * 1000000)%Q
  | DatetimeNow _ | RandomUniform _ _ _ => 0
  | _ => 150000
  end.

Definition clock (start : Z) (h : Trace) : Z :=
  fold_left (fun t e => t + cost e) h start.

Definition unavailable {A} : PyExc + A :=
  inl (OtherError "MaxRetryError" "Max retries exceeded").

Fixpoint lookup (docs : list (string * json)) (text : string) : PyExc + json :=
  match docs with
  | [] => inl (JSONDecodeError "Expecting value")
  | (t, v) :: rest => if String.eqb t text then inr v else lookup rest text
  end.

Definition platform (start : Z)
    (logs : list (PyExc + ResourceListOfRequestLog))
    (requests : string -> nat -> PyExc + Request)
    (responses : string -> nat -> PyExc + Response)
    (docs : list (string * json)) : Platform :=
  {| datetime_now := clock start;
     list_request_logs := fun h _ => nth (count is_search h) logs unavailable;
     get_request := fun h i => requests i (count (is_request_of i) h);
     get_response := fun h i => responses i (count (is_response_of i) h);
     random_uniform := fun _ a b => (inject_Z (a + b) / 2)%Q;
     json_loads := lookup docs |}.

(** The session of the notebook.  Its two valuation calls are logged as
    "ok" (HTTP 200) and "bad" (HTTP 400, no instruments); "missing" is the
    log of a call that was answered with HTTP 404. *)
Definition start : Z := 1700000000400000.

Definition session : string := "0b5ae2f4".

Definition ok_log : RequestLog :=
  mkRequestLog "ok" "2023-11-14T22:12:58" "Success" 200.

Definition bad_log : RequestLog :=
  mkRequestLog "bad" "2023-11-14T22:13:05" "Failure" 400.

Definition missing_log : RequestLog :=
  mkRequestLog "missing" "2023-11-14T22:13:11" "Failure" 404.

Definition listing (rows : list RequestLog)
    : PyExc + ResourceListOfRequestLog :=
  inr (mkResourceList rows).

(** The text of a JSON string: the characters between double quotes. *)
Definition str (s : string) : string :=
  let quote := String (ascii_of_nat 34) EmptyString in
  (quote ++ s ++ quote)%string.

Definition invalid_parameter_text : string :=
  ("{" ++ str "name" ++ ": " ++ str "InvalidParameterValue" ++ ", " ++
   str "errorDetails" ++ ": [{" ++ str "id" ++ ": " ++ str "instruments" ++
   ", " ++ str "detail" ++ ": " ++ str "must not be empty" ++ "}]}")%string.

Definition invalid_parameter : json :=
  JDict [("name", JStr "InvalidParameterValue");
         ("errorDetails",
          JList [JDict [("id", JStr "instruments");
                        ("detail", JStr "must not be empty")]])]%string.

Definition not_found_text : string :=
  ("{" ++ str "name" ++ ": " ++ str "PortfolioNotFound" ++ ", " ++
   str "errorDetails" ++ ": []}")%string.

Definition not_found : json :=
  JDict [("name", JStr "PortfolioNotFound");
         ("errorDetails", JList [])]%string.

Definition docs : list (string * json) :=
  [("{}"%string, JDict []);
   (invalid_parameter_text, invalid_parameter);
   (not_found_text, not_found)].

(** The answer of the platform for a body that is not indexed yet. *)
Definition not_indexed {A} : PyExc + A :=
  inl (ApiException 404 "Not Found").

(** The bodies of "bad" are indexed late: its request body is served from
    the third call on and its response body from the second call on. *)
Definition requests (log_id : string) (n : nat) : PyExc + Request :=
  if String.eqb log_id "bad" && (n <? 2)%nat then not_indexed
  else inr (mkRequest "{}").

Definition responses (log_id : string) (n : nat) : PyExc + Response :=
  if String.eqb log_id "bad" then
    if (n <? 1)%nat then not_indexed
    else inr (mkResponse invalid_parameter_text)
  else if String.eqb log_id "missing" then inr (mkResponse not_found_text)
  else inr (mkResponse "{}").

(** The logs are indexed one after the other. *)
Definition slow_index : Platform :=
  platform start
    [listing []; listing [ok_log]; listing [ok_log; bad_log]]
    requests responses docs.

(** The second log and the bodies are never indexed. *)
Definition never_indexed : Platform :=
  platform start
    (repeat (listing [ok_log]) 8)
    (fun _ _ => not_indexed) (fun _ _ => not_indexed) docs.

(** The log store fails at its second call. *)
Definition store_down : Platform :=
  platform start [listing [ok_log]; unavailable] requests responses docs.

(** The log store has four logs for the session, one of them twice. *)
Definition four_logs : Platform :=
  platform start
    [listing [ok_log; bad_log; ok_log; missing_log]]
    requests responses docs.

(** The records of the three logs. *)
Definition ok_record : ResultRecord :=
  mkResultRecord "ok" "2023-11-14T22:12:58" "Success" JNull JNull
    (JDict []) (JDict []).

Definition bad_record : ResultRecord :=
  mkResultRecord "bad" "2023-11-14T22:13:05" "Failure"
    (JStr "InvalidParameterValue")
    (JList [JDict [("id", JStr "instruments");
                   ("detail", JStr "must not be empty")]])%string
    (JDict []) invalid_parameter.

Definition missing_record : ResultRecord :=
  mkResultRecord "missing" "2023-11-14T22:13:11" "Failure" JNull JNull
    (JDict []) not_found.

End Mock.

From Stdlib Require Import Lqa.

(** ** The range of datetime *)

(** The times from 1000-01-01T00:00:00 up to 9999-12-31T23:59:59.999999, in
    microseconds since 1970-01-01T00:00:00.  Within them the difference
    [datetime - timedelta] raises no OverflowError (Python keeps to the years
    1 to 9999) and [%Y] has four digits on every platform. *)
Definition in_datetime_range (t : Z) : bool :=
  (-354285 * 86400000000 <=? t) && (t <? 2932897 * 86400000000).

(** The two times that an attempt of [insights_log_requests] formats, from
    its readings [w] of the clock, are in the range of datetime. *)
Definition window_in_range (lower upper : Z) (w : Z * Z) : bool :=
  in_datetime_range (fst w - timedelta_minutes lower)
  && in_datetime_range (snd w - timedelta_minutes upper).

(** ** Waiting time *)

(** The seconds slept in a trace. *)
Fixpoint total_sleep (tr : Trace) : Q :=
  match tr with
  | [] => 0
  | TimeSleep s :: rest => s + total_sleep rest
  | _ :: rest => total_sleep rest
  end.

(** The contract of [random.uniform(a, b)] for [a <= b]: the value drawn lies
    between [a] and [b]. *)
Definition uniform_in_range (P : Platform) : Prop :=
  forall h a b,
    (a <= b)%Z ->
    (inject_Z a <= random_uniform P h a b <= inject_Z b)%Q.

Definition Qsum (l : list Q) : Q := fold_right Qplus 0%Q l.

(** The i-th of the seconds lies between 0 and the value of [expo] for the
    state [n + i] of the wait generator. *)
Fixpoint within_expo (n : nat) (seconds : list Q) : Prop :=
  match seconds with
  | [] => True
  | s :: rest => (0 <= s <= inject_Z (expo n))%Q /\ within_expo (S n) rest
  end.

(** ** Attempts of [request_response_reqs] *)

(** [get_request] answered in the attempt, so that [get_response] was
    called. *)
Definition request_answered (a : DetailAttempt) : bool :=
  match a with
  | RequestFailed _ => false
  | _ => true
  end.

(** More scripted platforms. *)
Module Outage.

(** The logs are there, the request bodies too, but the connection breaks at
  every call of [get_response]. *)
Definition responses_down : Platform :=
Mock.platform Mock.start
  [Mock.listing [Mock.ok_log; Mock.bad_log]]
  Mock.requests (fun _ _ => Mock.unavailable) Mock.docs.

(** The platform refuses every call for the bodies (HTTP 403). *)
Definition forbidden : Platform :=
Mock.platform Mock.start
  [Mock.listing [Mock.ok_log; Mock.bad_log]]
  (fun _ _ => inl (ApiException 403 "Forbidden"))
  (fun _ _ => inl (ApiException 403 "Forbidden")) Mock.docs.

(** The log "ok" is the log of a call without a body: its request body is the
  empty text, which [json.loads] does not accept. *)
Definition empty_request : Platform :=
Mock.platform Mock.start
  [Mock.listing [Mock.ok_log; Mock.bad_log]]
  (fun _ _ => inr (mkRequest EmptyString)) Mock.responses Mock.docs.

(** The second log is never indexed; the bodies of the first log are
  there. *)
Definition one_log_only : Platform :=
Mock.platform Mock.start
  (repeat (Mock.listing [Mock.ok_log]) 8)
  Mock.requests Mock.responses Mock.docs.

End Outage.

(** ** Runs of [request_response_bodies] *)

(** What the loop body makes of a row once the fetch of its bodies has ended
    with the attempt [a]: the exception of the fetch, the exception of
    [json.loads] for the request body or else for the response body, or what
    [classify] gives. *)
Definition record_from (P : Platform) (row : RequestLog) (a : DetailAttempt)
    : PyExc + ResultRecord :=
  match a with
  | RequestFailed e => inl e
  | ResponseFailed _ e => inl e
  | BothFetched request response =>
      match json_loads P (request_text request) with
      | inl e => inl e
      | inr request_body =>
          match json_loads P (response_text response) with
          | inl e => inl e
          | inr response_body => classify row request_body response_body
          end
      end
  end.

(** The attempts of one fetch: at most four retried attempts, which all
    raised an [ApiException], and a last one that did not, unless it is the
    fifth. *)
Definition fetch_ok (retried : list (DetailAttempt * Q))
    (last : DetailAttempt) : Prop :=
  (length retried < 5)%nat
  /\ forallb (failed_with is_ApiException) (map fst retried) = true
  /\ (failed_with is_ApiException last = true -> length retried = 4%nat).

(** The runs of the loop of [request_response_bodies] over [rows], from the
    records [rr_bodies]: the outcome and the trace. *)
Inductive BodiesRun (P : Platform)
    : list RequestLog -> list ResultRecord ->
      Outcome (list ResultRecord) -> Trace -> Prop :=
| Bodies_done rr_bodies :
    BodiesRun P [] rr_bodies (Returned rr_bodies) []
| Bodies_raise row rest rr_bodies retried last e :
    fetch_ok retried last ->
    record_from P row last = inl e ->
    BodiesRun P (row :: rest) rr_bodies (Raised e)
      (fetching_events (id row) 0 retried last)
| Bodies_next row rest rr_bodies retried last rr out tr :
    fetch_ok retried last ->
    record_from P row last = inr rr ->
    BodiesRun P rest (rr_bodies ++ [rr]) out tr ->
    BodiesRun P (row :: rest) rr_bodies out
      (fetching_events (id row) 0 retried last ++ tr).

(** The pairs of bodies of the attempts in which both were fetched. *)
Fixpoint fetched_pairs (attempts : list DetailAttempt)
    : list (Request * Response) :=
  match attempts with
  | [] => []
  | BothFetched request response :: rest =>
      (request, response) :: fetched_pairs rest
  | _ :: rest => fetched_pairs rest
  end.

(** ** The address of the Insights API *)

(** [s.rfind(sub)]: the highest index at which [sub] occurs in [s], or -1;
    [i] is the index of the first character of [s]. *)
Fixpoint rfind_from (i : Z) (s sub : string) : Z :=
  match s with
  | EmptyString => if prefix sub EmptyString then i else -1
  | String _ rest =>
      let later := rfind_from (i + 1) rest sub in
      if 0 <=? later then later
      else if prefix sub s then i else -1
  end.

Definition rfind (s sub : string) : Z := rfind_from 0 s sub.

(** The slice [s[:stop]]: a negative [stop] counts from the end, and the
    bounds are clipped to the string. *)
Definition slice_to (s : string) (stop : Z) : string :=
  let n := Z.of_nat (String.length s) in
  let stop := if stop <? 0 then Z.max 0 (n + stop) else Z.min stop n in
  substring 0 (Z.to_nat stop) s.

(** [insights_api_url = lusid_api_url[: lusid_api_url.rfind("/") + 1] + "insights"] *)
Definition insights_api_url (lusid_api_url : string) : string :=
  (slice_to lusid_api_url (rfind lusid_api_url "/" + 1) ++ "insights")%string.

(** The string has no "/". *)
Fixpoint no_slash (s : string) : bool :=
  match s with
  | EmptyString => true
  | String c rest => negb (Ascii.eqb c "/") && no_slash rest
  end.

(** ** The cell that prints the errors

    [request_bodies_df] is the data frame of the records and the last cell
    goes through its rows with [iterrows].  The data frame is taken here as
    the list of the records, in their order.  This is what the cell sees when
    the [error] column holds None only, or strings only: [iterrows] gives the
    rows in order and the cells that are read ([id], [error],
    [response_body]) hold the values of the records.  It is not what the cell
    sees otherwise: pandas turns the None of a column of numbers into NaN,
    and, from pandas 3 on, the None of a column of strings too, and NaN is
    true.  The properties below are stated for the two cases where the list
    is faithful. *)

(** The truth value of a Python value. *)
Definition truthy (v : json) : bool :=
  match v with
  | JNull => false
  | JBool b => b
  | JInt n => negb (n =? 0)
  | JFloat q => negb (Qeq_bool q 0)
  | JStr EmptyString => false
  | JStr (String _ _) => true
  | JList [] => false
  | JList (_ :: _) => true
  | JDict [] => false
  | JDict (_ :: _) => true
  end.

Definition is_string (v : json) : bool :=
  match v with
  | JStr _ => true
  | _ => false
  end.

(** [obj[0]]: the first element of a list or the first character of a
    string, IndexError when there is none; a dict of [json.loads] has no key
    0; no other value can be indexed. *)
Definition getitem0 (obj : json) : PyExc + json :=
  match obj with
  | JList (first :: _) => inr first
  | JList [] => inl (OtherError "IndexError" "list index out of range")
  | JStr (String c _) => inr (JStr (String c EmptyString))
  | JStr EmptyString =>
      inl (OtherError "IndexError" "string index out of range")
  | JDict _ => inl (KeyError "0")
  | _ => inl (TypeError "object is not subscriptable")
  end.

Section PrintErrors.

(** [repr] of a value that is not a string, as a replacement field of an
  f-string shows it. *)
Variable repr : json -> string.

(** [str(v)], which is what a replacement field without format shows. *)
Definition str (v : json) : string :=
match v with
| JStr s => s
| _ => repr v
end.

(** The f-string of the cell for one row.  Its replacement fields are
  evaluated from left to right; the two subscript chains read the same
  values, so that the second chain can only fail at its last subscript. *)
Definition error_line (row : ResultRecord) : PyExc + string :=
match getitem (rr_response_body row) "errorDetails" with
| inl e => inl e
| inr details =>
    match getitem0 details with
    | inl e => inl e
    | inr first =>
        match getitem first "id" with
        | inl e => inl e
        | inr parameter =>
            match getitem first "detail" with
            | inl e => inl e
            | inr detail =>
                inr ("For message ID " ++ rr_id row ++ ", error type " ++
                     str (rr_error row) ++ " was returned for the " ++
                     str parameter ++
                     " parameter. The error message was '" ++
                     str detail ++ "'")%string
            end
        end
    end
end.

(** The loop of the cell: the lines printed and the exception that ended the
  loop, if any. *)
Fixpoint print_errors (rows : list ResultRecord)
  : list string * option PyExc :=
match rows with
| [] => ([], None)
| row :: rest =>
    if truthy (rr_error row) then
      match error_line row with
      | inl e => ([], Some e)
      | inr line =>
          let (lines, raised) := print_errors rest in
          (line :: lines, raised)
      end
    else print_errors rest
end.

End PrintErrors.

Module Samples.

(** A status 400 whose body names the error and gives no detail. *)
Definition bare_text : string :=
("{" ++ Mock.str "name" ++ ": " ++ Mock.str "InvalidRequest" ++ ", " ++
 Mock.str "errorDetails" ++ ": []}")%string.

Definition bare : json :=
JDict [("name", JStr "InvalidRequest"); ("errorDetails", JList [])]%string.

Definition bare_record : ResultRecord :=
mkResultRecord "bare" "2023-11-14T22:13:14" "Failure"
  (JStr "InvalidRequest") (JList []) (JDict []) bare.

(** The [repr] of the examples, which show strings only. *)
Definition no_repr (v : json) : string := "?".

End Samples.

(** * Properties *)

(** ** datetime *)

Example strftime_epoch : strftime 0 = "1970-01-01T00:00:00"%string.
Proof. reflexivity. Qed.

Example strftime_2023 :
  strftime 1700000000123456 = "2023-11-14T22:13:20"%string.
Proof. vm_compute. reflexivity. Qed.

Example strftime_new_year :
  strftime (946684799 * 1000000 + 999999) = "1999-12-31T23:59:59"%string
  /\ strftime (946684800 * 1000000) = "2000-01-01T00:00:00"%string.
Proof. vm_compute. split; reflexivity. Qed.

Example strftime_leap_day :
  strftime (1709251199 * 1000000) = "2024-02-29T23:59:59"%string.
Proof. vm_compute. reflexivity. Qed.

(** ** The polling loop of [insights_log_requests] *)

Lemma bind_run {A B} (m : M A) (f : A -> M B) h :
  bind m f h =
  match m h with
  | (Returned a, t1) => let (o, t2) := f a (h ++ t1) in (o, t1 ++ t2)
  | (Raised e, t1) => (Raised e, t1)
  | (Diverged, t1) => (Diverged, t1)
  end.
Proof. reflexivity. Qed.

Arguments strftime : simpl never.
Arguments filter_text : simpl never.

Section Polling.

Variable P : Platform.
Variable correlation_id operation : string.
Variable lower upper : Z.

#[local, warnings="-notation-for-abbreviation"]

Notation body :=
  (insights_log_requests_body P correlation_id operation lower upper).

Lemma insights_log_requests_body_run h :
  let a := observe P correlation_id operation lower upper h in
  body h =
  (outcome_of (reply a), attempt_events correlation_id operation lower upper a).
Proof.
  unfold insights_log_requests_body, observe, attempt_events,
    attempt_filter, now, ask, bind, lift; cbn.
  rewrite <- !app_assoc; cbn.
  destruct (list_request_logs P _ _); reflexivity.
Qed.

(** The trace of the loop: attempts that returned too few entries, each
    followed by a wait, then one last attempt whose answer is the outcome.
    The last attempt is either not short, or the last that [max_tries]
    allows. *)
Lemma retry_predicate_polling max_tries :
  forall fuel tries n h,
    (tries + fuel = max_tries)%nat -> (0 < fuel)%nat ->
    exists retried last,
      retry_predicate P body too_few max_tries fuel tries n h =
      (outcome_of (reply last),
       polling_events correlation_id operation lower upper n retried last)
      /\ (length retried < fuel)%nat
      /\ forallb short_reply (map (fun p => reply (fst p)) retried) = true
      /\ (short_reply (reply last) = true -> S (length retried) = fuel).
Proof.
  induction fuel as [|fuel IH]; intros tries n h Hsum Hpos; [lia|].
  cbn [retry_predicate]. rewrite bind_run, insights_log_requests_body_run.
  generalize (observe P correlation_id operation lower upper h); intros a.
  destruct (reply a) as [e|x] eqn:Hreply; cbn [outcome_of].
  - exists [], a. cbn [polling_events length map forallb].
    rewrite Hreply. cbn. repeat split; try lia; discriminate.
  - destruct (too_few x) eqn:Hfew.
    + destruct (Nat.eqb_spec (S tries) max_tries) as [Hlast|Hmore].
      * exists [], a. cbn [polling_events length map forallb pure].
        rewrite Hreply, app_nil_r. cbn. repeat split; try lia.
      * unfold next_wait, full_jitter, time_sleep, ask.
        rewrite !bind_run.
        match goal with
        | |- context [retry_predicate _ _ _ _ fuel ?t ?m ?h'] =>
            destruct (IH t m h')
              as (retried & last & Hrun & Hlen & Hshort & Hend); [lia|lia|];
            rewrite Hrun
        end.
        match goal with
        | |- context [RandomUniform 0 (expo n) ?x] =>
            exists ((a, x) :: retried), last
        end.
        cbn [polling_events length map forallb fst pause_events app].
        rewrite Hreply. cbn [short_reply]. rewrite Hfew, Hshort.
        repeat split; try lia.
        intros H. specialize (Hend H). lia.
    + exists [], a. cbn [polling_events length map forallb pure].
      rewrite Hreply, app_nil_r. cbn [short_reply outcome_of]. rewrite Hfew.
      repeat split; try lia; discriminate.
Qed.

End Polling.

(** ** Projections of the polling traces *)

Section PollingProjections.

Variable correlation_id operation : string.
Variable lower upper : Z.

#[local, warnings="-notation-for-abbreviation"]

Notation events :=
  (polling_events correlation_id operation lower upper).

Lemma search_replies_polling retried last : forall n,
  search_replies (events n retried last) =
  map (fun p => reply (fst p)) retried ++ [reply last].
Proof.
  induction retried as [|[a s] rest IH]; intros n; [reflexivity|].
  cbn. f_equal. apply IH.
Qed.

Lemma search_filters_polling retried last : forall n,
  search_filters (events n retried last) =
  map (attempt_filter correlation_id operation lower upper)
      (map fst retried ++ [last]).
Proof.
  induction retried as [|[a s] rest IH]; intros n; [reflexivity|].
  cbn. f_equal. apply IH.
Qed.

Lemma clock_reads_polling retried last : forall n,
  pairs (clock_reads (events n retried last)) =
  map (fun a => (now_lower a, now_upper a)) (map fst retried ++ [last]).
Proof.
  induction retried as [|[a s] rest IH]; intros n; [reflexivity|].
  cbn. f_equal. apply IH.
Qed.

Lemma sleeps_after_polling retried last : forall n calls,
  sleeps_after is_search calls (events n retried last) =
  combine (seq (S calls) (length retried)) (map snd retried).
Proof.
  induction retried as [|[a s] rest IH]; intros n calls; [reflexivity|].
  cbn. f_equal. apply IH.
Qed.

Lemma jitter_draws_polling retried last : forall n,
  jitter_draws (events n retried last) =
  combine (map (fun i => (0, expo i)) (seq n (length retried)))
          (map snd retried).
Proof.
  induction retried as [|[a s] rest IH]; intros n; [reflexivity|].
  cbn [events polling_events attempt_events pause_events app jitter_draws
       length seq map combine snd].
  f_equal. apply IH.
Qed.

End PollingProjections.

Lemma map_fst_combine_same_length {A B} (l : list A) (l' : list B) :
  length l = length l' -> map fst (combine l l') = l.
Proof.
  revert l'; induction l as [|a l IH]; intros [|b l'] Hlen;
    try reflexivity; try discriminate.
  cbn. f_equal. apply IH. now injection Hlen.
Qed.

(** In a list whose elements but the last pass a test, an element that fails
    the test is the last one. *)
Lemma nth_error_first_failing {A} (test : A -> bool) l x k r :
  forallb test l = true ->
  nth_error (l ++ [x]) k = Some r ->
  test r = false ->
  k = length l /\ r = x.
Proof.
  revert k; induction l as [|y l IH]; intros k Hall Hnth Hr.
  - destruct k as [|k]; cbn in Hnth; [split; [reflexivity|congruence]|].
    destruct k; discriminate.
  - cbn in Hall. apply andb_true_iff in Hall as [Hy Hl].
    destruct k as [|k]; cbn in Hnth.
    + congruence.
    + destruct (IH k Hl Hnth Hr) as [-> ->]. split; reflexivity.
Qed.

(** The run of [insights_log_requests] from any history. *)
Lemma insights_log_requests_run P correlation_id operation lower upper h :
  exists retried last,
    insights_log_requests P correlation_id operation lower upper h =
    (outcome_of (reply last),
     polling_events correlation_id operation lower upper 0 retried last)
    /\ (length retried < 5)%nat
    /\ forallb short_reply (map (fun p => reply (fst p)) retried) = true
    /\ (short_reply (reply last) = true -> length retried = 4%nat).
Proof.
  destruct (retry_predicate_polling P correlation_id operation lower upper
              5 5 0 0 h) as (retried & last & Hrun & Hlen & Hshort & Hend);
    [reflexivity|lia|].
  exists retried, last. repeat split; auto.
  intros H. specialize (Hend H). lia.
Qed.

(** ** Fuel

    The loops stop of themselves once [max_tries] calls are made: more fuel
    than the calls that are left changes nothing. *)

Lemma retry_predicate_fuel {A} P (target : M A) predicate max_tries :
  forall fuel extra tries n h,
    (tries + fuel = max_tries)%nat -> (0 < fuel)%nat ->
    retry_predicate P target predicate max_tries (fuel + extra) tries n h =
    retry_predicate P target predicate max_tries fuel tries n h.
Proof.
  induction fuel as [|fuel IH]; intros extra tries n h Hsum Hpos; [lia|].
  cbn [retry_predicate Nat.add]. rewrite !bind_run.
  destruct (target h) as [[ret|e|] t]; try reflexivity.
  destruct (predicate ret); [|reflexivity].
  destruct (Nat.eqb_spec (S tries) max_tries) as [Hlast|Hmore];
    [reflexivity|].
  cbv beta iota. unfold next_wait, full_jitter, time_sleep, ask.
  rewrite !bind_run.
  rewrite IH by lia. reflexivity.
Qed.

Lemma retry_exception_fuel {A} P (target : M A) exception max_tries :
  forall fuel extra tries n h,
    (tries + fuel = max_tries)%nat -> (0 < fuel)%nat ->
    retry_exception P target exception max_tries (fuel + extra) tries n h =
    retry_exception P target exception max_tries fuel tries n h.
Proof.
  induction fuel as [|fuel IH]; intros extra tries n h Hsum Hpos; [lia|].
  cbn [retry_exception Nat.add]. rewrite !bind_run. unfold caught.
  destruct (target h) as [[ret|e|] t]; try reflexivity.
  destruct (exception e); [|reflexivity].
  destruct (Nat.eqb_spec (S tries) max_tries) as [Hlast|Hmore];
    [reflexivity|].
  cbv beta iota. unfold next_wait, full_jitter, time_sleep, ask.
  rewrite !bind_run.
  rewrite IH by lia. reflexivity.
Qed.

(** ** The traces record the answers of the platform

    The claims below speak of the answers found in the trace of a run.  These
    are the answers of the platform: every event of the trace of the three
    functions of the notebook records what the platform answers at the moment
    of the event. *)

Lemma answered_by_app P t1 : forall h t2,
  answered_by P h (t1 ++ t2) <->
  answered_by P h t1 /\ answered_by P (h ++ t1) t2.
Proof.
  induction t1 as [|e t1 IH]; intros h t2; cbn.
  - rewrite app_nil_r. tauto.
  - rewrite IH, <- app_assoc. cbn. tauto.
Qed.

Section Faithful.

Variable P : Platform.

Lemma faithful_pure {A} (a : A) : faithful P (pure a).
Proof. intros h. exact I. Qed.

Lemma faithful_raise {A} e : faithful P (@raise A e).
Proof. intros h. exact I. Qed.

Lemma faithful_lift {A} (r : PyExc + A) : faithful P (lift r).
Proof. destruct r; [apply faithful_raise|apply faithful_pure]. Qed.

Lemma faithful_ask {A} (answer : Trace -> A) (event : A -> Event) :
(forall h, answers P h (event (answer h))) -> faithful P (ask answer event).
Proof. intros H h. cbn. split; [apply H|exact I]. Qed.

Lemma faithful_time_sleep seconds : faithful P (time_sleep seconds).
Proof. intros h. cbn. auto. Qed.

Lemma faithful_bind {A B} (m : M A) (f : A -> M B) :
faithful P m -> (forall a, faithful P (f a)) -> faithful P (bind m f).
Proof.
intros Hm Hf h. rewrite bind_run. specialize (Hm h).
destruct (m h) as [[a|e|] t1]; cbn [snd] in *; try exact Hm.
specialize (Hf a (h ++ t1)). destruct (f a (h ++ t1)) as [o t2].
cbn [snd] in *. apply answered_by_app. split; assumption.
Qed.

Lemma faithful_caught {A} (m : M A) : faithful P m -> faithful P (caught m).
Proof.
intros Hm h. specialize (Hm h). unfold caught.
destruct (m h) as [[a|e|] t]; exact Hm.
Qed.

Lemma faithful_next_wait n : faithful P (next_wait P n).
Proof. apply faithful_ask. intros h. reflexivity. Qed.

Lemma faithful_retry_predicate {A} (target : M A) predicate max_tries :
faithful P target ->
forall fuel tries n,
  faithful P (retry_predicate P target predicate max_tries fuel tries n).
Proof.
intros Ht. induction fuel as [|fuel IH]; intros tries n.
- intros h. exact I.
- cbn [retry_predicate]. apply faithful_bind; [exact Ht|]. intros ret.
  destruct (predicate ret); [|apply faithful_pure].
  destruct (Nat.eqb (S tries) max_tries); [apply faithful_pure|].
  apply faithful_bind; [apply faithful_next_wait|]. intros seconds.
  apply faithful_bind; [apply faithful_time_sleep|]. intros _. apply IH.
Qed.

Lemma faithful_retry_exception {A} (target : M A) exception max_tries :
faithful P target ->
forall fuel tries n,
  faithful P (retry_exception P target exception max_tries fuel tries n).
Proof.
intros Ht. induction fuel as [|fuel IH]; intros tries n.
- intros h. exact I.
- cbn [retry_exception].
  apply faithful_bind; [apply faithful_caught; exact Ht|]. intros [e|ret];
    [|apply faithful_pure].
  destruct (exception e); [|apply faithful_raise].
  destruct (Nat.eqb (S tries) max_tries); [apply faithful_raise|].
  apply faithful_bind; [apply faithful_next_wait|]. intros seconds.
  apply faithful_bind; [apply faithful_time_sleep|]. intros _. apply IH.
Qed.

Lemma faithful_insights_log_requests correlation_id operation lower upper :
faithful P (insights_log_requests P correlation_id operation lower upper).
Proof.
apply faithful_retry_predicate. unfold insights_log_requests_body.
apply faithful_bind; [apply faithful_ask; intros h; reflexivity|].
intros now_lower.
apply faithful_bind; [apply faithful_ask; intros h; reflexivity|].
intros now_upper.
apply faithful_bind; [apply faithful_ask; intros h; reflexivity|].
intros reply. apply faithful_lift.
Qed.

Lemma faithful_request_response_reqs log_id :
faithful P (request_response_reqs P log_id).
Proof.
apply faithful_retry_exception. unfold request_response_reqs_body.
apply faithful_bind.
{ apply faithful_bind; [apply faithful_ask; intros h; reflexivity|].
  intros reply. apply faithful_lift. }
intros request. apply faithful_bind.
{ apply faithful_bind; [apply faithful_ask; intros h; reflexivity|].
  intros reply. apply faithful_lift. }
intros response. apply faithful_pure.
Qed.

Lemma faithful_request_response_bodies req_logs :
faithful P (request_response_bodies P req_logs).
Proof.
unfold request_response_bodies. generalize (@nil ResultRecord).
induction (values req_logs) as [|row rest IH]; intros rr_bodies.
- apply faithful_pure.
- cbn [request_response_bodies_loop].
  apply faithful_bind; [apply faithful_request_response_reqs|].
  intros req_resp. apply faithful_bind; [apply faithful_lift|].
  intros request_body. apply faithful_bind; [apply faithful_lift|].
  intros response_body. apply faithful_bind; [apply faithful_lift|].
  intros rr. apply IH.
Qed.

End Faithful.

(** ** Claims on [insights_log_requests] *)

Section FetchLogs.

Variable P : Platform.
Variable correlation_id operation : string.
Variable lower upper : Z.
Variable h : Trace.

#[local, warnings="-notation-for-abbreviation"]

Notation run :=
(insights_log_requests P correlation_id operation lower upper h).

(** C1. [insights_log_requests] polls the log store up to five times: an
  answer with fewer than two entries to one of the first four calls is
  always followed by a sleep and by another call.  When the first [k]
  answers have fewer than two entries and the next answer [v] has at least
  two, the function returns [v] and has called the log store exactly
  [k + 1] times, at most five; it has slept once after each of the first
  [k] calls and not after the last one, and the i-th sleep lasts what the
  jitter drew between 0 and [2 ^ (i - 1)] seconds, a bound that doubles
  from one wait to the next.  What the trace records as drawn is what
  [random.uniform] gave, like every other answer in it. *)
Theorem insights_log_requests_returns_first_full_answer :
(forall i r,
    nth_error (search_replies (snd run)) i = Some r ->
    short_reply r = true ->
    (S i < 5)%nat ->
    In (S i) (map fst (sleeps_after is_search 0 (snd run)))
    /\ exists r', nth_error (search_replies (snd run)) (S i) = Some r')
/\ (forall k v,
      forallb short_reply (firstn k (search_replies (snd run))) = true ->
      nth_error (search_replies (snd run)) k = Some (inr v) ->
      (2 <= length (values v))%nat ->
      fst run = Returned v
      /\ length (search_replies (snd run)) = S k
      /\ (S k <= 5)%nat
      /\ exists seconds : list Q,
           length seconds = k
           /\ jitter_draws (snd run) =
              combine (map (fun i => (0, 2 ^ Z.of_nat i)) (seq 0 k)) seconds
           /\ sleeps_after is_search 0 (snd run) =
              combine (seq 1 k) seconds)
/\ answered_by P h (snd run).
Proof.
pose proof (faithful_insights_log_requests P correlation_id operation
              lower upper h) as Hans.
destruct (insights_log_requests_run P correlation_id operation lower upper h)
  as (retried & last & Hrun & Hlen & Hshort & Hend).
rewrite Hrun in *. cbn [fst snd] in *.
rewrite search_replies_polling, sleeps_after_polling, jitter_draws_polling
  in *.
split; [|split; [|exact Hans]].
- intros i r Hnth Hr Hi.
  assert (Hbound : (i < length (map (fun p => reply (fst p)) retried
                               ++ [reply last]))%nat).
  { apply nth_error_Some. congruence. }
  rewrite length_app, length_map in Hbound. cbn [length] in Hbound.
  assert (Hin : (i < length retried)%nat).
  { destruct (Nat.eq_dec i (length retried)) as [Heq|Hne]; [|lia].
    rewrite nth_error_app2 in Hnth by (rewrite length_map; lia).
    rewrite length_map, Heq, Nat.sub_diag in Hnth. cbn in Hnth.
    injection Hnth as <-. specialize (Hend Hr). lia. }
  split.
  + rewrite map_fst_combine_same_length
      by (rewrite length_seq, length_map; reflexivity).
    apply in_seq. lia.
  + destruct (nth_error (map (fun p => reply (fst p)) retried
                           ++ [reply last]) (S i)) as [r'|] eqn:Hnext;
      [eauto|].
    apply nth_error_None in Hnext.
    rewrite length_app, length_map in Hnext. cbn [length] in Hnext. lia.
- intros k v _ Hnth Hfull.
  assert (Hv : short_reply (inr v) = false).
  { unfold short_reply, too_few. apply Nat.ltb_ge. exact Hfull. }
  destruct (nth_error_first_failing _ _ _ _ _ Hshort Hnth Hv) as [Hk Hlast].
  rewrite length_map in Hk. subst k.
  rewrite <- Hlast. cbn [outcome_of].
  rewrite length_app, length_map. cbn [length].
  repeat split; try lia.
  exists (map snd retried). rewrite length_map.
  repeat split.
  f_equal. apply map_ext. intros i. unfold expo. f_equal. lia.
Qed.

(** C2. When every answer of the log store has fewer than two entries,
  [insights_log_requests] calls the log store exactly five times and returns
  the fifth answer, short as it is; no exception is raised. *)
Theorem insights_log_requests_returns_last_short_answer :
forallb short_reply (search_replies (snd run)) = true ->
length (search_replies (snd run)) = 5%nat
/\ exists x,
     fst run = Returned x
     /\ nth_error (search_replies (snd run)) 4 = Some (inr x)
     /\ (length (values x) < 2)%nat.
Proof.
intros Hall.
destruct (insights_log_requests_run P correlation_id operation lower upper h)
  as (retried & last & Hrun & Hlen & Hshort & Hend).
rewrite Hrun in *. cbn [fst snd] in *.
rewrite search_replies_polling in *.
rewrite forallb_app in Hall. apply andb_true_iff in Hall as [_ Hlast].
cbn [forallb] in Hlast. rewrite andb_true_r in Hlast.
specialize (Hend Hlast).
rewrite length_app, length_map, Hend. split; [reflexivity|].
destruct (reply last) as [e|x] eqn:Hreply; [discriminate|].
exists x. repeat split.
- rewrite nth_error_app2; rewrite length_map, Hend; [reflexivity|lia].
- unfold short_reply, too_few in Hlast. apply Nat.ltb_lt. exact Hlast.
Qed.

(** A short answer is always followed by another call, until five calls are
  made. *)
Lemma insights_log_requests_retries_short_answer i r :
nth_error (search_replies (snd run)) i = Some r ->
short_reply r = true ->
(i < 4)%nat ->
exists r', nth_error (search_replies (snd run)) (S i) = Some r'.
Proof.
intros Hnth Hr Hi.
destruct (insights_log_requests_run P correlation_id operation lower upper h)
  as (retried & last & Hrun & Hlen & Hshort & Hend).
rewrite Hrun in *. cbn [fst snd] in *.
rewrite search_replies_polling in *.
assert (Hbound : (i < length (map (fun p => reply (fst p)) retried
                             ++ [reply last]))%nat).
{ apply nth_error_Some. congruence. }
rewrite length_app, length_map in Hbound. cbn [length] in Hbound.
assert (Hin : (i < length retried)%nat).
{ destruct (Nat.eq_dec i (length retried)) as [Heq|Hne]; [|lia].
  rewrite nth_error_app2 in Hnth by (rewrite length_map; lia).
  rewrite length_map, Heq, Nat.sub_diag in Hnth. cbn in Hnth.
  injection Hnth as <-. specialize (Hend Hr). lia. }
destruct (nth_error (map (fun p => reply (fst p)) retried ++ [reply last])
            (S i)) as [r'|] eqn:Hnext; [eauto|].
apply nth_error_None in Hnext.
rewrite length_app, length_map in Hnext. cbn [length] in Hnext. lia.
Qed.

(** C5. When a call of the log store raises an exception,
  [insights_log_requests] raises this very exception and the call is its
  last one; every earlier call had returned fewer than two entries, and
  there was one sleep after each of them and none after the failed call. *)
Theorem insights_log_requests_propagates_exception k e :
nth_error (search_replies (snd run)) k = Some (inl e) ->
fst run = Raised e
/\ length (search_replies (snd run)) = S k
/\ forallb short_reply (firstn k (search_replies (snd run))) = true
/\ map fst (sleeps_after is_search 0 (snd run)) = seq 1 k.
Proof.
intros Hnth.
destruct (insights_log_requests_run P correlation_id operation lower upper h)
  as (retried & last & Hrun & Hlen & Hshort & _).
rewrite Hrun in *. cbn [fst snd] in *.
rewrite search_replies_polling in *.
destruct (nth_error_first_failing _ _ _ _ _ Hshort Hnth eq_refl)
  as [Hk Hlast].
rewrite <- Hlast. cbn [outcome_of].
rewrite length_app, length_map. rewrite length_map in Hk. cbn [length].
repeat split; try lia.
- rewrite firstn_app, Hk, length_map, Nat.sub_diag, firstn_O, app_nil_r.
  rewrite <- (length_map (fun p => reply (fst p))), firstn_all.
  exact Hshort.
- rewrite sleeps_after_polling, Hk.
  apply map_fst_combine_same_length. rewrite length_seq, length_map. reflexivity.
Qed.

(** C9, as the code has it.  Every filter expression that one invocation
  sends to the log store names the operation and the correlation identifier
  of the invocation; its two time bounds are computed anew for every
  attempt, from the two readings of the clock that the attempt makes. *)
Theorem insights_log_requests_filters_follow_the_clock :
search_filters (snd run) =
map (fun w =>
       filter_text correlation_id
         (strftime (fst w - timedelta_minutes lower))
         (strftime (snd w - timedelta_minutes upper))
         operation)
    (pairs (clock_reads (snd run))).
Proof.
destruct (insights_log_requests_run P correlation_id operation lower upper h)
  as (retried & last & Hrun & _).
rewrite Hrun. cbn [snd].
rewrite search_filters_polling, clock_reads_polling, map_map.
reflexivity.
Qed.

End FetchLogs.

(** ** The retry loop of [request_response_reqs] *)

Section Fetching.

Variable P : Platform.
Variable log_id : string.

#[local, warnings="-notation-for-abbreviation"]
Notation body := (request_response_reqs_body P log_id).

Lemma request_response_reqs_body_run h :
exists a, body h = (detail_outcome a, detail_events log_id a).
Proof.
unfold request_response_reqs_body, ask, lift.
rewrite !bind_run. cbn -[bind].
destruct (get_request P h log_id) as [e|request].
- exists (RequestFailed e). reflexivity.
- cbn -[bind]. rewrite !bind_run. cbn.
  destruct (get_response P _ log_id) as [e|response].
  + exists (ResponseFailed request e). reflexivity.
  + exists (BothFetched request response). reflexivity.
Qed.

(** The trace of the loop: attempts that raised an [ApiException], each
  followed by a wait, then one last attempt whose outcome is the outcome of
  the loop.  The last attempt did not raise an [ApiException], or it is the
  last that [max_tries] allows. *)
Lemma retry_exception_fetching max_tries :
forall fuel tries n h,
  (tries + fuel = max_tries)%nat -> (0 < fuel)%nat ->
  exists retried last,
    retry_exception P body is_ApiException max_tries fuel tries n h =
    (detail_outcome last, fetching_events log_id n retried last)
    /\ (length retried < fuel)%nat
    /\ forallb (failed_with is_ApiException) (map fst retried) = true
    /\ (failed_with is_ApiException last = true ->
        S (length retried) = fuel).
Proof.
induction fuel as [|fuel IH]; intros tries n h Hsum Hpos; [lia|].
cbn [retry_exception]. rewrite bind_run. unfold caught at 1.
destruct (request_response_reqs_body_run h) as [a Hbody]. rewrite Hbody.
assert (Hstop : failed_with is_ApiException a = false ->
                exists retried last,
                  (detail_outcome a, detail_events log_id a ++ []) =
                  (detail_outcome last, fetching_events log_id n retried last)
                  /\ (length retried < S fuel)%nat
                  /\ forallb (failed_with is_ApiException)
                       (map fst retried) = true
                  /\ (failed_with is_ApiException last = true ->
                      S (length retried) = S fuel)).
{ intros Hno. exists [], a. rewrite app_nil_r. cbn.
  repeat split; try lia. congruence. }
assert (Hfail : forall e, detail_outcome a = Raised e ->
          failed_with is_ApiException a = is_ApiException e ->
          exists retried last,
            (let (o, t2) :=
               (if is_ApiException e
                then if Nat.eqb (S tries) max_tries then raise e
                     else bind (next_wait P n) (fun seconds =>
                          bind (time_sleep seconds) (fun _ =>
                          retry_exception P body is_ApiException max_tries
                            fuel (S tries) (S n)))
                else raise e) (h ++ detail_events log_id a) in
             (o, detail_events log_id a ++ t2)) =
            (detail_outcome last, fetching_events log_id n retried last)
            /\ (length retried < S fuel)%nat
            /\ forallb (failed_with is_ApiException) (map fst retried) = true
            /\ (failed_with is_ApiException last = true ->
                S (length retried) = S fuel)).
{ intros e Hout Hclass.
  destruct (is_ApiException e) eqn:Hapi.
  - destruct (Nat.eqb_spec (S tries) max_tries) as [Hlast|Hmore].
    + exists [], a. cbn. rewrite app_nil_r, Hout.
      repeat split; try lia.
    + unfold next_wait, full_jitter, time_sleep, ask.
      rewrite !bind_run.
      match goal with
      | |- context [retry_exception _ _ _ _ fuel ?t ?m ?h'] =>
          destruct (IH t m h')
            as (retried & last & Hrun & Hlen & Hshort & Hend); [lia|lia|];
          rewrite Hrun
      end.
      match goal with
      | |- context [RandomUniform 0 (expo n) ?x] =>
          exists ((a, x) :: retried), last
      end.
      cbn [fetching_events length map forallb fst pause_events app].
      rewrite Hclass, Hshort.
      repeat split; try lia.
      intros H. specialize (Hend H). lia.
  - unfold raise. rewrite <- Hout. apply Hstop. exact Hclass. }
destruct a as [e|request e|request response].
- apply (Hfail e); reflexivity.
- apply (Hfail e); reflexivity.
- apply Hstop. reflexivity.
Qed.

Lemma request_response_reqs_run h :
exists retried last,
  request_response_reqs P log_id h =
  (detail_outcome last, fetching_events log_id 0 retried last)
  /\ (length retried < 5)%nat
  /\ forallb (failed_with is_ApiException) (map fst retried) = true
  /\ (failed_with is_ApiException last = true -> length retried = 4%nat).
Proof.
destruct (retry_exception_fetching 5 5 0 0 h)
  as (retried & last & Hrun & Hlen & Hshort & Hend); [reflexivity|lia|].
exists retried, last. repeat split; auto.
intros H. specialize (Hend H). lia.
Qed.

Lemma detail_attempts_fetching retried last : forall n,
detail_attempts (fetching_events log_id n retried last) =
map fst retried ++ [last].
Proof.
unfold detail_attempts.
induction retried as [|[a s] rest IH]; intros n.
- destruct last; reflexivity.
- cbn [fetching_events map fst app]. rewrite <- (IH (S n)).
  destruct a; reflexivity.
Qed.

Lemma request_calls_fetching retried last : forall n,
request_calls (fetching_events log_id n retried last) =
repeat log_id (S (length retried)).
Proof.
induction retried as [|[a s] rest IH]; intros n.
- destruct last; reflexivity.
- change (repeat log_id (S (length ((a, s) :: rest))))
    with (log_id :: repeat log_id (S (length rest))).
  rewrite <- (IH (S n)). destruct a; reflexivity.
Qed.

Lemma sleeps_after_fetching retried last : forall n calls,
sleeps_after is_get_request calls (fetching_events log_id n retried last) =
combine (seq (S calls) (length retried)) (map snd retried).
Proof.
induction retried as [|[a s] rest IH]; intros n calls.
- destruct last; reflexivity.
- cbn [fetching_events length seq map snd combine].
  rewrite <- (IH (S n) (S calls)). destruct a; reflexivity.
Qed.

Lemma jitter_draws_fetching retried last : forall n,
jitter_draws (fetching_events log_id n retried last) =
combine (map (fun i => (0, expo i)) (seq n (length retried)))
        (map snd retried).
Proof.
induction retried as [|[a s] rest IH]; intros n.
- destruct last; reflexivity.
- cbn [fetching_events length seq map snd combine].
  rewrite <- (IH (S n)). destruct a; reflexivity.
Qed.

Lemma failed_with_not_found_ApiException a :
failed_with is_not_found a = true -> failed_with is_ApiException a = true.
Proof.
destruct a as [e|request e|request response]; cbn; try discriminate;
  destruct e; cbn; congruence.
Qed.

Variable h : Trace.

#[local, warnings="-notation-for-abbreviation"]
Notation run := (request_response_reqs P log_id h).

(** C6. [request_response_reqs] fetches the two bodies as a pair and retries
  the pair up to five times: an attempt that fails with "not found", in
  either lookup, is always followed by a sleep and by another attempt when
  it is one of the first four, and every attempt begins again with
  [get_request].  When the first [k] attempts fail with "not found" and in
  the next attempt both bodies are fetched, the function returns this pair
  of bodies and makes no further attempt: there are exactly [k + 1]
  attempts, at most five, and between two attempts the function sleeps what
  the jitter drew between 0 and a bound that doubles, starting from one
  second.  What the trace records as drawn is what [random.uniform] gave,
  like every other answer in it. *)
Theorem request_response_reqs_returns_first_pair :
(forall i a,
    nth_error (detail_attempts (snd run)) i = Some a ->
    failed_with is_not_found a = true ->
    (S i < 5)%nat ->
    In (S i) (map fst (sleeps_after is_get_request 0 (snd run)))
    /\ exists a', nth_error (detail_attempts (snd run)) (S i) = Some a')
/\ request_calls (snd run) =
   repeat log_id (length (detail_attempts (snd run)))
/\ (forall k request response,
      forallb (failed_with is_not_found)
        (firstn k (detail_attempts (snd run))) = true ->
      nth_error (detail_attempts (snd run)) k =
        Some (BothFetched request response) ->
      fst run = Returned (request, response)
      /\ length (detail_attempts (snd run)) = S k
      /\ (S k <= 5)%nat
      /\ request_calls (snd run) = repeat log_id (S k)
      /\ exists seconds : list Q,
           length seconds = k
           /\ jitter_draws (snd run) =
              combine (map (fun i => (0, 2 ^ Z.of_nat i)) (seq 0 k)) seconds
           /\ sleeps_after is_get_request 0 (snd run) =
              combine (seq 1 k) seconds)
/\ answered_by P h (snd run).
Proof.
pose proof (faithful_request_response_reqs P log_id h) as Hans.
destruct (request_response_reqs_run h)
  as (retried & last & Hrun & Hlen & Hfailed & Hend).
rewrite Hrun in *. cbn [fst snd] in *.
rewrite detail_attempts_fetching, request_calls_fetching,
  sleeps_after_fetching, jitter_draws_fetching in *.
split; [|split; [|split; [|exact Hans]]].
- intros i a Hnth Ha Hi.
  apply failed_with_not_found_ApiException in Ha.
  assert (Hbound : (i < length (map fst retried ++ [last]))%nat).
  { apply nth_error_Some. congruence. }
  rewrite length_app, length_map in Hbound. cbn [length] in Hbound.
  assert (Hin : (i < length retried)%nat).
  { destruct (Nat.eq_dec i (length retried)) as [Heq|Hne]; [|lia].
    rewrite nth_error_app2 in Hnth by (rewrite length_map; lia).
    rewrite length_map, Heq, Nat.sub_diag in Hnth. cbn in Hnth.
    injection Hnth as <-. specialize (Hend Ha). lia. }
  split.
  + rewrite map_fst_combine_same_length
      by (rewrite length_seq, length_map; reflexivity).
    apply in_seq. lia.
  + destruct (nth_error (map fst retried ++ [last]) (S i)) as [a'|]
      eqn:Hnext; [eauto|].
    apply nth_error_None in Hnext.
    rewrite length_app, length_map in Hnext. cbn [length] in Hnext. lia.
- rewrite length_app, length_map. cbn [length]. f_equal. lia.
- intros k request response _ Hnth.
  destruct (nth_error_first_failing _ _ _ _ _ Hfailed Hnth eq_refl)
    as [Hk Hlast].
  rewrite length_map in Hk. subst k. rewrite <- Hlast. cbn [detail_outcome].
  rewrite length_app, length_map. cbn [length].
  repeat split; try lia.
  exists (map snd retried). rewrite length_map.
  repeat split.
  f_equal. apply map_ext. intros i. unfold expo. f_equal. lia.
Qed.

(** An attempt that fails with an [ApiException] is always followed by
  another attempt, until five attempts are made. *)
Lemma request_response_reqs_retries_ApiException i a :
nth_error (detail_attempts (snd run)) i = Some a ->
failed_with is_ApiException a = true ->
(i < 4)%nat ->
exists a', nth_error (detail_attempts (snd run)) (S i) = Some a'.
Proof.
intros Hnth Ha Hi.
destruct (request_response_reqs_run h)
  as (retried & last & Hrun & Hlen & Hfailed & Hend).
rewrite Hrun in *. cbn [fst snd] in *.
rewrite detail_attempts_fetching in *.
assert (Hbound : (i < length (map fst retried ++ [last]))%nat).
{ apply nth_error_Some. congruence. }
rewrite length_app, length_map in Hbound. cbn [length] in Hbound.
assert (Hin : (i < length retried)%nat).
{ destruct (Nat.eq_dec i (length retried)) as [Heq|Hne]; [|lia].
  rewrite nth_error_app2 in Hnth by (rewrite length_map; lia).
  rewrite length_map, Heq, Nat.sub_diag in Hnth. cbn in Hnth.
  injection Hnth as <-. specialize (Hend Ha). lia. }
destruct (nth_error (map fst retried ++ [last]) (S i)) as [a'|] eqn:Hnext;
  [eauto|].
apply nth_error_None in Hnext.
rewrite length_app, length_map in Hnext. cbn [length] in Hnext. lia.
Qed.

(** C3, as the code has it.  When every attempt of [request_response_reqs]
  fails with "not found", there are exactly five attempts and the function
  raises the exception of the fifth attempt, unchanged: the "not found"
  [ApiException] of the platform itself. *)
Theorem request_response_reqs_reraises_last_not_found :
forallb (failed_with is_not_found) (detail_attempts (snd run)) = true ->
length (detail_attempts (snd run)) = 5%nat
/\ exists a e,
     nth_error (detail_attempts (snd run)) 4 = Some a
     /\ detail_outcome a = Raised e
     /\ fst run = Raised e
     /\ is_not_found e = true
     /\ exc_class e = "ApiException"%string.
Proof.
intros Hall.
destruct (request_response_reqs_run h)
  as (retried & last & Hrun & Hlen & Hfailed & Hend).
rewrite Hrun in *. cbn [fst snd] in *.
rewrite detail_attempts_fetching in *.
rewrite forallb_app in Hall. apply andb_true_iff in Hall as [_ Hlast].
cbn [forallb] in Hlast. rewrite andb_true_r in Hlast.
specialize (Hend (failed_with_not_found_ApiException _ Hlast)).
rewrite length_app, length_map, Hend. split; [reflexivity|].
assert (Hexc : exists e, detail_outcome last = Raised e
                         /\ is_not_found e = true).
{ destruct last as [e|rq e|rq rs]; cbn in *; try discriminate;
    exists e; split; auto. }
destruct Hexc as (e & Hout & Hnf).
exists last, e. repeat split; auto.
- rewrite nth_error_app2; rewrite length_map, Hend; [reflexivity|lia].
- destruct e; try discriminate. reflexivity.
Qed.

End Fetching.

(** ** The records of [request_response_bodies] *)

Lemma classify_returns row request_body response_body r :
  classify row request_body response_body = inr r ->
  rr_id r = id row /\ rr_timestamp r = timestamp row
  /\ rr_outcome r = outcome row
  /\ rr_request_body r = request_body /\ rr_response_body r = response_body.
Proof.
  unfold classify. intros H.
  destruct (http_status_code row =? 400).
  - destruct (getitem response_body "name") as [e|name]; [discriminate|].
    destruct (getitem response_body "errorDetails") as [e|details];
      [discriminate|].
    injection H as <-. cbn. auto.
  - injection H as <-. cbn. auto.
Qed.

Lemma classify_record_of row request_body response_body r :
  classify row request_body response_body = inr r -> record_of row r.
Proof.
  intros H. unfold record_of.
  destruct (classify_returns _ _ _ _ H) as (_ & _ & _ & -> & ->). exact H.
Qed.

Lemma classify_error_fields row request_body response_body r :
  classify row request_body response_body = inr r ->
  (http_status_code row = 400 ->
   getitem response_body "name" = inr (rr_error r)
   /\ getitem response_body "errorDetails" = inr (rr_error_details r))
  /\ (http_status_code row <> 400 ->
      rr_error r = JNull /\ rr_error_details r = JNull).
Proof.
  unfold classify. intros H.
  destruct (Z.eqb_spec (http_status_code row) 400) as [Heq|Hne].
  - destruct (getitem response_body "name") as [e|name]; [discriminate|].
    destruct (getitem response_body "errorDetails") as [e|details];
      [discriminate|].
    injection H as <-. cbn. split; [auto|contradiction].
  - injection H as <-. cbn. split; [contradiction|auto].
Qed.

Lemma lift_run {A} (r : PyExc + A) h : lift r h = (outcome_of r, []).
Proof. destruct r; reflexivity. Qed.

(** The loop returns the records it was given followed by one record for
    every row that is left, in the order of the rows, unless a step raises;
    it does not diverge. *)
Lemma request_response_bodies_loop_run P : forall rows rr_bodies h,
  match fst (request_response_bodies_loop P rows rr_bodies h) with
  | Returned records =>
      exists added, records = rr_bodies ++ added /\ Forall2 record_of rows added
  | Raised _ => True
  | Diverged => False
  end.
Proof.
  induction rows as [|row rest IH]; intros rr_bodies h.
  - cbn. exists []. rewrite app_nil_r. split; [reflexivity|constructor].
  - cbn [request_response_bodies_loop]. rewrite bind_run.
    destruct (request_response_reqs_run P (id row) h)
      as (retried & last & Hrun & _).
    rewrite Hrun.
    destruct last as [e|request e|request response]; cbn [detail_outcome];
      try exact I.
    rewrite bind_run, lift_run.
    destruct (json_loads P (request_text (fst (request, response))))
      as [e|request_body]; cbn [outcome_of]; [exact I|].
    rewrite bind_run, lift_run.
    destruct (json_loads P (response_text (snd (request, response))))
      as [e|response_body]; cbn [outcome_of]; [exact I|].
    rewrite bind_run, lift_run.
    destruct (classify row request_body response_body) as [e|rr] eqn:Hrr;
      cbn [outcome_of]; [exact I|].
    match goal with
    | |- context [request_response_bodies_loop P rest ?acc ?h'] =>
        specialize (IH acc h');
        destruct (request_response_bodies_loop P rest acc h') as [out tr]
    end.
    cbn [fst] in *. destruct out as [records|e|]; auto.
    destruct IH as (added & -> & Hall).
    exists (rr :: added). rewrite <- app_assoc. split; [reflexivity|].
    constructor; [|exact Hall].
    eapply classify_record_of; eassumption.
Qed.

(** C4, as the code has it.  In every record that [request_response_bodies]
    returns, the two error fields are read from the response body of the
    record if and only if the HTTP status of its log is 400: for status 400
    they are [response_body["name"]] and [response_body["errorDetails"]], and
    for every other status, the other client errors such as 404 included,
    both are None whatever the response body holds. *)
Theorem request_response_bodies_error_fields P req_logs h records :
  fst (request_response_bodies P req_logs h) = Returned records ->
  Forall2
    (fun row r =>
       (http_status_code row = 400 ->
        getitem (rr_response_body r) "name" = inr (rr_error r)
        /\ getitem (rr_response_body r) "errorDetails" =
           inr (rr_error_details r))
       /\ (http_status_code row <> 400 ->
           rr_error r = JNull /\ rr_error_details r = JNull))
    (values req_logs) records.
Proof.
  intros Hrun. unfold request_response_bodies in Hrun.
  pose proof (request_response_bodies_loop_run P (values req_logs) [] h) as H.
  rewrite Hrun in H. destruct H as (added & -> & Hall). cbn [app].
  revert Hall. apply Forall2_impl. intros row r Hr.
  apply (classify_error_fields _ _ _ _ Hr).
Qed.

(** C7. For a log with HTTP status 400 whose response body has the keys
    "name" and "errorDetails", the record has [response_body["name"]] as its
    error and [response_body["errorDetails"]], the very same sequence, as its
    error details; the other fields are those of the log and the two
    bodies. *)
Theorem classify_status_400_reads_error_fields
    row request_body response_body name details :
  http_status_code row = 400 ->
  getitem response_body "name" = inr name ->
  getitem response_body "errorDetails" = inr details ->
  classify row request_body response_body =
  inr (mkResultRecord (id row) (timestamp row) (outcome row) name details
         request_body response_body).
Proof.
  intros Hstatus Hname Hdetails. unfold classify.
  rewrite Hstatus, Hname, Hdetails. reflexivity.
Qed.

(** C8, as the code has it.  The step that builds a record fails exactly
    when the HTTP status is 400 and the response body is not an object with
    the two keys "name" and "errorDetails", and it fails with the exception of
    the subscript: KeyError for a missing key, TypeError for a body that is
    not an object.  In every other case it returns a record; for status 400
    the record has both error fields of the body. *)
Theorem classify_fails_with_the_subscript_error row request_body response_body :
  match classify row request_body response_body with
  | inl e =>
      http_status_code row = 400
      /\ has_error_fields response_body = false
      /\ (e = KeyError "name" \/ e = KeyError "errorDetails"
          \/ exists message, e = TypeError message)
  | inr r =>
      (http_status_code row <> 400 \/ has_error_fields response_body = true)
      /\ (http_status_code row = 400 ->
          getitem response_body "name" = inr (rr_error r)
          /\ getitem response_body "errorDetails" = inr (rr_error_details r))
  end.
Proof.
  destruct (classify row request_body response_body) as [e|r] eqn:Hc.
  - unfold classify in Hc.
    destruct (Z.eqb_spec (http_status_code row) 400) as [Heq|Hne];
      [|discriminate].
    split; [exact Heq|].
    destruct response_body as [| | | | |items|fields]; cbn in Hc |- *;
      try (injection Hc as <-; split; [reflexivity|eauto]).
    destruct (dict_get fields "name") as [name|].
    + destruct (dict_get fields "errorDetails") as [details|];
        [discriminate|].
      injection Hc as <-. auto.
    + injection Hc as <-. auto.
  - split; [|apply (classify_error_fields _ _ _ _ Hc)].
    unfold classify in Hc.
    destruct (Z.eqb_spec (http_status_code row) 400) as [Heq|Hne];
      [right|left; exact Hne].
    destruct response_body as [| | | | |items|fields]; try discriminate.
    cbn in Hc |- *.
    destruct (dict_get fields "name") as [name|]; [|discriminate].
    destruct (dict_get fields "errorDetails") as [details|]; [|discriminate].
    reflexivity.
Qed.

(** C10. When an answer of the log store has more than two entries,
    [insights_log_requests] stops polling and returns this answer as it is,
    with all its entries; and whenever [request_response_bodies] returns for
    this answer, it returns exactly one record for every entry, in the order
    of the entries, each with the identifier, timestamp and outcome of its
    entry.  [request_response_bodies] returns or raises: it does not loop. *)
Theorem more_entries_than_expected_are_all_kept
    P correlation_id operation lower upper h k v :
  nth_error
    (search_replies
       (snd (insights_log_requests P correlation_id operation lower upper h)))
    k = Some (inr v) ->
  (2 < length (values v))%nat ->
  fst (insights_log_requests P correlation_id operation lower upper h) =
    Returned v
  /\ length
       (search_replies
          (snd (insights_log_requests P correlation_id operation lower upper h)))
     = S k
  /\ forall h',
       match fst (request_response_bodies P v h') with
       | Returned records =>
           Forall2
             (fun row r =>
                rr_id r = id row /\ rr_timestamp r = timestamp row
                /\ rr_outcome r = outcome row)
             (values v) records
       | Raised _ => True
       | Diverged => False
       end.
Proof.
  intros Hnth Hmore.
  destruct (insights_log_requests_run P correlation_id operation lower upper h)
    as (retried & last & Hrun & Hlen & Hshort & _).
  rewrite Hrun in *. cbn [fst snd] in *.
  rewrite search_replies_polling in *.
  assert (Hv : short_reply (inr v) = false).
  { unfold short_reply, too_few. apply Nat.ltb_ge. lia. }
  destruct (nth_error_first_failing _ _ _ _ _ Hshort Hnth Hv) as [Hk Hlast].
  rewrite <- Hlast. cbn [outcome_of].
  rewrite length_app, length_map. rewrite length_map in Hk. cbn [length].
  repeat split; try lia.
  intros h'. unfold request_response_bodies.
  pose proof (request_response_bodies_loop_run P (values v) [] h') as H.
  destruct (fst (request_response_bodies_loop P (values v) [] h'))
    as [records|e|]; auto.
  destruct H as (added & -> & Hall). cbn [app].
  revert Hall. apply Forall2_impl. intros row r Hr.
  destruct (classify_returns _ _ _ _ Hr) as (H1 & H2 & H3 & _). auto.
Qed.

(** ** The notebook on the scripted platforms *)

(** The two valuation calls of the session, end to end: the log store is
    polled three times, the bodies of the failed call are fetched at the
    fourth attempt, and the data frame has one row for each call. *)
Example request_bodies_of_the_session :
  fst (request_bodies Mock.slow_index Mock.session []) =
  Returned [Mock.ok_record; Mock.bad_record].
Proof. vm_compute. reflexivity. Qed.

Lemma insights_log_requests_returns_first_full_answer_witness :
  (In 1%nat
     (map fst
        (sleeps_after is_search 0
           (snd (i_response Mock.slow_index Mock.session []))))
   /\ exists r',
        nth_error
          (search_replies (snd (i_response Mock.slow_index Mock.session [])))
          1 = Some r')
  /\ (fst (i_response Mock.slow_index Mock.session []) =
        Returned (mkResourceList [Mock.ok_log; Mock.bad_log])
      /\ length
           (search_replies (snd (i_response Mock.slow_index Mock.session [])))
         = 3%nat
      /\ (3 <= 5)%nat
      /\ exists seconds : list Q,
           length seconds = 2%nat
           /\ jitter_draws (snd (i_response Mock.slow_index Mock.session [])) =
              combine (map (fun i => (0, 2 ^ Z.of_nat i)) (seq 0 2)) seconds
           /\ sleeps_after is_search 0
                (snd (i_response Mock.slow_index Mock.session [])) =
              combine (seq 1 2) seconds)
  /\ answered_by Mock.slow_index []
       (snd (i_response Mock.slow_index Mock.session [])).
Proof.
  destruct (insights_log_requests_returns_first_full_answer
              Mock.slow_index Mock.session "GetValuationOfWeightedInstruments"
              5 0 []) as (Hretry & Hfull & Hdrawn).
  split; [|split; [|exact Hdrawn]].
  - apply (Hretry 0%nat (Mock.listing [])).
    + vm_compute. reflexivity.
    + reflexivity.
    + lia.
  - apply (Hfull 2%nat (mkResourceList [Mock.ok_log; Mock.bad_log])).
    + vm_compute. reflexivity.
    + vm_compute. reflexivity.
    + cbn. lia.
Defined.

Lemma insights_log_requests_returns_last_short_answer_witness :
  length (search_replies (snd (i_response Mock.never_indexed Mock.session [])))
  = 5%nat
  /\ exists x,
       fst (i_response Mock.never_indexed Mock.session []) = Returned x
       /\ nth_error
            (search_replies
               (snd (i_response Mock.never_indexed Mock.session []))) 4
          = Some (inr x)
       /\ (length (values x) < 2)%nat.
Proof.
  apply (insights_log_requests_returns_last_short_answer
           Mock.never_indexed Mock.session "GetValuationOfWeightedInstruments"
           5 0 []).
  vm_compute. reflexivity.
Defined.

Lemma insights_log_requests_propagates_exception_witness :
  fst (i_response Mock.store_down Mock.session []) =
    Raised (OtherError "MaxRetryError" "Max retries exceeded")
  /\ length (search_replies (snd (i_response Mock.store_down Mock.session [])))
     = 2%nat
  /\ forallb short_reply
       (firstn 1
          (search_replies (snd (i_response Mock.store_down Mock.session []))))
     = true
  /\ map fst
       (sleeps_after is_search 0
          (snd (i_response Mock.store_down Mock.session []))) = seq 1 1.
Proof.
  apply (insights_log_requests_propagates_exception
           Mock.store_down Mock.session "GetValuationOfWeightedInstruments"
           5 0 [] 1 (OtherError "MaxRetryError" "Max retries exceeded")).
  vm_compute. reflexivity.
Defined.

(** C9 fails: on the platform whose logs are indexed one after the other, the
    three filter expressions of one invocation have three different time
    windows, one second apart. *)
Lemma insights_log_requests_filters_differ :
  search_filters (snd (i_response Mock.slow_index Mock.session [])) =
  ["timestamp gt 2023-11-14T22:08:20 and timestamp lt 2023-11-14T22:13:20 and operation eq 'GetValuationOfWeightedInstruments' and CorrelationId eq '0b5ae2f4' ";
   "timestamp gt 2023-11-14T22:08:21 and timestamp lt 2023-11-14T22:13:21 and operation eq 'GetValuationOfWeightedInstruments' and CorrelationId eq '0b5ae2f4' ";
   "timestamp gt 2023-11-14T22:08:22 and timestamp lt 2023-11-14T22:13:22 and operation eq 'GetValuationOfWeightedInstruments' and CorrelationId eq '0b5ae2f4' "]%string
  /\ ~ (forall f g,
          In f (search_filters
                  (snd (i_response Mock.slow_index Mock.session []))) ->
          In g (search_filters
                  (snd (i_response Mock.slow_index Mock.session []))) ->
          f = g).
Proof.
  assert (H : search_filters
                (snd (i_response Mock.slow_index Mock.session [])) =
              ["timestamp gt 2023-11-14T22:08:20 and timestamp lt 2023-11-14T22:13:20 and operation eq 'GetValuationOfWeightedInstruments' and CorrelationId eq '0b5ae2f4' ";
               "timestamp gt 2023-11-14T22:08:21 and timestamp lt 2023-11-14T22:13:21 and operation eq 'GetValuationOfWeightedInstruments' and CorrelationId eq '0b5ae2f4' ";
               "timestamp gt 2023-11-14T22:08:22 and timestamp lt 2023-11-14T22:13:22 and operation eq 'GetValuationOfWeightedInstruments' and CorrelationId eq '0b5ae2f4' "]%string).
  { vm_compute. reflexivity. }
  split; [exact H|].
  rewrite H. intros Hall.
  specialize (Hall _ _ (or_introl eq_refl) (or_intror (or_introl eq_refl))).
  discriminate Hall.
Qed.

Lemma request_response_reqs_returns_first_pair_witness :
  (In 3%nat
     (map fst
        (sleeps_after is_get_request 0
           (snd (request_response_reqs Mock.slow_index "bad" []))))
   /\ exists a',
        nth_error
          (detail_attempts
             (snd (request_response_reqs Mock.slow_index "bad" []))) 3
        = Some a')
  /\ (fst (request_response_reqs Mock.slow_index "bad" []) =
        Returned (mkRequest "{}", mkResponse Mock.invalid_parameter_text)
      /\ length
           (detail_attempts
              (snd (request_response_reqs Mock.slow_index "bad" [])))
         = 4%nat
      /\ (4 <= 5)%nat
      /\ request_calls (snd (request_response_reqs Mock.slow_index "bad" [])) =
         repeat "bad"%string 4
      /\ exists seconds : list Q,
           length seconds = 3%nat
           /\ jitter_draws
                (snd (request_response_reqs Mock.slow_index "bad" [])) =
              combine (map (fun i => (0, 2 ^ Z.of_nat i)) (seq 0 3)) seconds
           /\ sleeps_after is_get_request 0
                (snd (request_response_reqs Mock.slow_index "bad" [])) =
              combine (seq 1 3) seconds)
  /\ answered_by Mock.slow_index []
       (snd (request_response_reqs Mock.slow_index "bad" [])).
Proof.
  destruct (request_response_reqs_returns_first_pair Mock.slow_index "bad" [])
    as (Hretry & _ & Hpair & Hdrawn).
  split; [|split; [|exact Hdrawn]].
  - apply (Hretry 2%nat
             (ResponseFailed (mkRequest "{}") (ApiException 404 "Not Found"))).
    + vm_compute. reflexivity.
    + reflexivity.
    + lia.
  - apply (Hpair 3%nat (mkRequest "{}")
             (mkResponse Mock.invalid_parameter_text)).
    + vm_compute. reflexivity.
    + vm_compute. reflexivity.
Defined.

Lemma request_response_reqs_reraises_last_not_found_witness :
  length
    (detail_attempts (snd (request_response_reqs Mock.never_indexed "bad" [])))
  = 5%nat
  /\ exists a e,
       nth_error
         (detail_attempts
            (snd (request_response_reqs Mock.never_indexed "bad" []))) 4
       = Some a
       /\ detail_outcome a = Raised e
       /\ fst (request_response_reqs Mock.never_indexed "bad" []) = Raised e
       /\ is_not_found e = true
       /\ exc_class e = "ApiException"%string.
Proof.
  apply (request_response_reqs_reraises_last_not_found
           Mock.never_indexed "bad" []).
  vm_compute. reflexivity.
Defined.

(** C3 fails: when the bodies are never indexed, [request_response_reqs]
    makes five attempts that all fail with "not found" and then raises the
    "not found" exception of the platform, which is an [ApiException] and no
    exception of a class of its own. *)
Lemma request_response_reqs_raises_not_found_itself :
  forallb (failed_with is_not_found)
    (detail_attempts (snd (request_response_reqs Mock.never_indexed "bad" [])))
  = true
  /\ length
       (detail_attempts
          (snd (request_response_reqs Mock.never_indexed "bad" []))) = 5%nat
  /\ fst (request_response_reqs Mock.never_indexed "bad" []) =
     Raised (ApiException 404 "Not Found")
  /\ is_not_found (ApiException 404 "Not Found") = true
  /\ ~ (exists e,
          fst (request_response_reqs Mock.never_indexed "bad" []) = Raised e
          /\ (exc_class e = "IndexingTimeout"%string
              \/ exc_class e = "DetailNotIndexed"%string)).
Proof.
  repeat split; try (vm_compute; reflexivity).
  intros (e & He & Hclass).
  assert (H : fst (request_response_reqs Mock.never_indexed "bad" []) =
              Raised (ApiException 404 "Not Found")).
  { vm_compute. reflexivity. }
  rewrite H in He. injection He as <-.
  destruct Hclass as [Hc|Hc]; discriminate Hc.
Qed.

Lemma request_response_bodies_error_fields_witness :
  Forall2
    (fun row r =>
       (http_status_code row = 400 ->
        getitem (rr_response_body r) "name" = inr (rr_error r)
        /\ getitem (rr_response_body r) "errorDetails" =
           inr (rr_error_details r))
       /\ (http_status_code row <> 400 ->
           rr_error r = JNull /\ rr_error_details r = JNull))
    [Mock.ok_log; Mock.bad_log; Mock.ok_log; Mock.missing_log]
    [Mock.ok_record; Mock.bad_record; Mock.ok_record; Mock.missing_record].
Proof.
  apply (request_response_bodies_error_fields Mock.four_logs
           (mkResourceList
              [Mock.ok_log; Mock.bad_log; Mock.ok_log; Mock.missing_log])
           []).
  vm_compute. reflexivity.
Defined.

(** C4 fails: the log "missing" has the client-error status 404 and its
    response body has a name and error details, and yet both error fields of
    its record are None. *)
Lemma client_error_404_has_no_error_fields :
  fst (request_response_bodies Mock.four_logs
         (mkResourceList [Mock.missing_log]) []) =
    Returned [Mock.missing_record]
  /\ is_client_error (http_status_code Mock.missing_log) = true
  /\ has_error_fields (rr_response_body Mock.missing_record) = true
  /\ rr_error Mock.missing_record = JNull
  /\ rr_error_details Mock.missing_record = JNull.
Proof. repeat split; vm_compute; reflexivity. Qed.

(** The example of C7: status 400, the name "InvalidParameterValue" and one
    error detail. *)
Lemma classify_status_400_reads_error_fields_witness :
  classify Mock.bad_log (JDict []) Mock.invalid_parameter =
    inr Mock.bad_record
  /\ rr_error Mock.bad_record = JStr "InvalidParameterValue"
  /\ exists detail, rr_error_details Mock.bad_record = JList [detail].
Proof.
  split.
  - apply (classify_status_400_reads_error_fields Mock.bad_log (JDict [])
             Mock.invalid_parameter (JStr "InvalidParameterValue")
             (JList [JDict [("id", JStr "instruments");
                            ("detail", JStr "must not be empty")]])%string);
      reflexivity.
  - split; [reflexivity|eexists; reflexivity].
Defined.

(** C8 fails: for status 400 and a response body without "name" the step
    raises KeyError, and for a body with "name" and without "errorDetails" too;
    no exception of a class MalformedErrorBody is raised. *)
Lemma classify_raises_KeyError :
  classify Mock.bad_log (JDict []) (JDict []) = inl (KeyError "name")
  /\ classify Mock.bad_log (JDict [])
       (JDict [("name"%string, JStr "InvalidParameterValue")]) =
     inl (KeyError "errorDetails")
  /\ exc_class (KeyError "name") <> "MalformedErrorBody"%string
  /\ exc_class (KeyError "errorDetails") <> "MalformedErrorBody"%string.
Proof. repeat split; try reflexivity; discriminate. Qed.

Lemma more_entries_than_expected_are_all_kept_witness :
  fst (i_response Mock.four_logs Mock.session []) =
    Returned
      (mkResourceList
         [Mock.ok_log; Mock.bad_log; Mock.ok_log; Mock.missing_log])
  /\ length (search_replies (snd (i_response Mock.four_logs Mock.session [])))
     = 1%nat
  /\ fst (request_bodies Mock.four_logs Mock.session []) =
     Returned
       [Mock.ok_record; Mock.bad_record; Mock.ok_record; Mock.missing_record].
Proof.
  destruct (more_entries_than_expected_are_all_kept
              Mock.four_logs Mock.session "GetValuationOfWeightedInstruments"
              5 0 [] 0
              (mkResourceList
                 [Mock.ok_log; Mock.bad_log; Mock.ok_log; Mock.missing_log]))
    as (Hret & Hcalls & _).
  - vm_compute. reflexivity.
  - cbn. lia.
  - split; [exact Hret|]. split; [exact Hcalls|].
    vm_compute. reflexivity.
Defined.

(** * Further properties of the notebook *)

(** ** The polling of the log store *)

Lemma forallb_nth_error {A} (test : A -> bool) l i x :
  forallb test l = true -> nth_error l i = Some x -> test x = true.
Proof.
  intros Hall Hnth. rewrite forallb_forall in Hall.
  apply Hall. eapply nth_error_In. eassumption.
Qed.

Section PollingBounds.

Variable P : Platform.
Variable correlation_id operation : string.
Variable lower upper : Z.
Variable h : Trace.

#[local, warnings="-notation-for-abbreviation"]
Notation run :=
(insights_log_requests P correlation_id operation lower upper h).

(** X1. As long as the times that its attempts format are in the range of
  datetime, an invocation of [insights_log_requests] calls the log store at
  least once and at most five times and sleeps once between two calls; its
  outcome is the outcome of its last call alone (the answer returned, or
  the exception raised): answers of earlier calls are never merged into
  the result. *)
Theorem insights_log_requests_outcome_is_last_call :
forallb (window_in_range lower upper) (pairs (clock_reads (snd run))) =
  true ->
(1 <= length (search_replies (snd run)) <= 5)%nat
/\ map fst (sleeps_after is_search 0 (snd run)) =
   seq 1 (length (search_replies (snd run)) - 1)
/\ exists r,
     nth_error (search_replies (snd run))
       (length (search_replies (snd run)) - 1) = Some r
     /\ fst run = match r with inr x => Returned x | inl e => Raised e end.
Proof.
intros _.
destruct (insights_log_requests_run P correlation_id operation lower upper h)
  as (retried & last & Hrun & Hlen & Hshort & _).
rewrite Hrun. cbn [fst snd].
rewrite search_replies_polling, sleeps_after_polling, length_app, length_map.
cbn [length]. replace (length retried + 1 - 1)%nat with (length retried) by lia.
repeat split; try lia.
- apply map_fst_combine_same_length. rewrite length_seq, length_map.
  reflexivity.
- exists (reply last). split; [|reflexivity].
  rewrite nth_error_app2; rewrite length_map; [|lia].
  rewrite Nat.sub_diag. reflexivity.
Qed.

(** X2. A call of the log store is the last one of its invocation exactly
  when its answer has at least two entries, or it raised, or it is the
  fifth call: a short answer to one of the first four calls is always
  followed by another call. *)
Theorem insights_log_requests_stops_exactly_when i r :
nth_error (search_replies (snd run)) i = Some r ->
(S i = length (search_replies (snd run)) <->
 short_reply r = false \/ i = 4%nat).
Proof.
intros Hnth.
destruct (insights_log_requests_run P correlation_id operation lower upper h)
  as (retried & last & Hrun & Hlen & Hshort & Hend).
rewrite Hrun in *. cbn [fst snd] in *.
rewrite search_replies_polling in *.
rewrite length_app, length_map. cbn [length].
assert (Hbound : (i < length (map (fun p => reply (fst p)) retried
                             ++ [reply last]))%nat).
{ apply nth_error_Some. congruence. }
rewrite length_app, length_map in Hbound. cbn [length] in Hbound.
destruct (Nat.eq_dec i (length retried)) as [Heq|Hne].
- rewrite nth_error_app2 in Hnth by (rewrite length_map; lia).
  rewrite length_map, Heq, Nat.sub_diag in Hnth. cbn in Hnth.
  injection Hnth as <-. split; [intros _|lia].
  destruct (short_reply (reply last)) eqn:Hlast; [right|left; reflexivity].
  rewrite Heq. apply Hend. reflexivity.
- rewrite nth_error_app1 in Hnth by (rewrite length_map; lia).
  pose proof (forallb_nth_error _ _ _ _ Hshort Hnth) as Hr.
  split; [lia|]. intros [Hfalse|Hfour]; [congruence|lia].
Qed.

End PollingBounds.

(** ** Waiting time *)

Lemma expo_succ n : expo (S n) = 2 * expo n.
Proof. unfold expo. rewrite Nat2Z.inj_succ, Z.pow_succ_r; lia. Qed.

Lemma expo_pos n : 0 < expo n.
Proof. unfold expo. pose proof (Z.pow_pos_nonneg 2 (Z.of_nat n)). lia. Qed.

Lemma within_expo_sum seconds : forall n,
  within_expo n seconds ->
  (0 <= Qsum seconds <= inject_Z (expo (n + length seconds) - expo n))%Q.
Proof.
  induction seconds as [|s rest IH]; intros n Hin.
  - cbn. rewrite Nat.add_0_r, Z.sub_diag. split; apply Qle_refl.
  - destruct Hin as [[Hlo Hhi] Hrest]. specialize (IH (S n) Hrest).
    cbn [Qsum fold_right length] in *. fold (Qsum rest) in *.
    replace (n + S (length rest))%nat with (S n + length rest)%nat by lia.
    destruct IH as [IHlo IHhi].
    assert (Hsplit : (inject_Z (expo (S n + length rest) - expo n) ==
                      inject_Z (expo n) +
                      inject_Z (expo (S n + length rest) - expo (S n)))%Q).
    { rewrite <- inject_Z_plus. rewrite expo_succ.
      apply inject_Z_injective. lia. }
    rewrite Hsplit. split; lra.
Qed.

Lemma expo_le_16 k : (k <= 4)%nat -> expo k <= 16.
Proof.
  intros Hk. unfold expo. change 16 with (1 * 2 ^ Z.of_nat 4).
  apply Z.mul_le_mono_nonneg_l; [lia|].
  apply Z.pow_le_mono_r; lia.
Qed.

Lemma within_expo_at_most_15 seconds :
  within_expo 0 seconds -> (length seconds <= 4)%nat ->
  (0 <= Qsum seconds <= 15)%Q.
Proof.
  intros Hin Hlen. destruct (within_expo_sum _ _ Hin) as [Hlo Hhi].
  split; [exact Hlo|]. eapply Qle_trans; [exact Hhi|].
  change 15%Q with (inject_Z 15). rewrite <- Zle_Qle.
  cbn [Nat.add]. pose proof (expo_le_16 _ Hlen). change (expo 0) with 1. lia.
Qed.

Lemma answered_draw_in_range P h n x :
  uniform_in_range P ->
  answers P h (RandomUniform 0 (expo n) x) ->
  (0 <= x <= inject_Z (expo n))%Q.
Proof.
  intros Hu Hx. cbn in Hx. subst x.
  apply (Hu h 0 (expo n)). pose proof (expo_pos n). lia.
Qed.

Lemma total_sleep_polling correlation_id operation lower upper retried last :
  forall n,
    total_sleep
      (polling_events correlation_id operation lower upper n retried last) =
    Qsum (map snd retried).
Proof.
  induction retried as [|[a s] rest IH]; intros n; [reflexivity|].
  cbn [polling_events attempt_events pause_events app total_sleep map snd
       Qsum fold_right].
  rewrite (IH (S n)). reflexivity.
Qed.

Lemma polling_within_expo P correlation_id operation lower upper retried last :
  uniform_in_range P ->
  forall n h,
    answered_by P h
      (polling_events correlation_id operation lower upper n retried last) ->
    within_expo n (map snd retried).
Proof.
  intros Hu. induction retried as [|[a s] rest IH]; intros n h Hans;
    [exact I|].
  cbn [polling_events] in Hans.
  apply answered_by_app in Hans as [_ Hans].
  apply answered_by_app in Hans as [Hpause Hrest].
  cbn [map snd within_expo]. split.
  - destruct Hpause as [Hdraw _].
    exact (answered_draw_in_range _ _ _ _ Hu Hdraw).
  - exact (IH _ _ Hrest).
Qed.

(** X3. When [random.uniform] keeps to its interval, one invocation of
    [insights_log_requests] sleeps at most 1 + 2 + 4 + 8 = 15 seconds in
    all. *)
Theorem insights_log_requests_sleeps_at_most_15_seconds
    P correlation_id operation lower upper h :
  uniform_in_range P ->
  (0 <= total_sleep
          (snd (insights_log_requests P correlation_id operation lower upper h))
   <= 15)%Q.
Proof.
  intros Hu.
  pose proof (faithful_insights_log_requests P correlation_id operation
                lower upper h) as Hans.
  destruct (insights_log_requests_run P correlation_id operation lower upper h)
    as (retried & last & Hrun & Hlen & _).
  rewrite Hrun in *. cbn [snd] in *.
  rewrite total_sleep_polling.
  apply within_expo_at_most_15.
  - exact (polling_within_expo _ _ _ _ _ _ _ Hu _ _ Hans).
  - rewrite length_map. lia.
Qed.

Lemma total_sleep_app t1 : forall t2,
  (total_sleep (t1 ++ t2) == total_sleep t1 + total_sleep t2)%Q.
Proof.
  induction t1 as [|e t1 IH]; intros t2; cbn [app total_sleep].
  - lra.
  - destruct e; cbn; rewrite ?IH; lra.
Qed.

Lemma total_sleep_detail_events log_id a :
  total_sleep (detail_events log_id a) = 0%Q.
Proof. destruct a; reflexivity. Qed.

Lemma total_sleep_fetching log_id retried last : forall n,
  (total_sleep (fetching_events log_id n retried last) ==
   Qsum (map snd retried))%Q.
Proof.
  induction retried as [|[a s] rest IH]; intros n.
  - cbn. rewrite total_sleep_detail_events. lra.
  - cbn [fetching_events map snd Qsum fold_right]. fold (Qsum (map snd rest)).
    rewrite total_sleep_app, total_sleep_detail_events.
    cbn [pause_events app total_sleep]. rewrite (IH (S n)). lra.
Qed.

Lemma fetching_within_expo P log_id retried last :
  uniform_in_range P ->
  forall n h,
    answered_by P h (fetching_events log_id n retried last) ->
    within_expo n (map snd retried).
Proof.
  intros Hu. induction retried as [|[a s] rest IH]; intros n h Hans;
    [exact I|].
  cbn [fetching_events] in Hans.
  apply answered_by_app in Hans as [_ Hans].
  apply answered_by_app in Hans as [Hpause Hrest].
  cbn [map snd within_expo]. split.
  - destruct Hpause as [Hdraw _].
    exact (answered_draw_in_range _ _ _ _ Hu Hdraw).
  - exact (IH _ _ Hrest).
Qed.

(** X4. When [random.uniform] keeps to its interval, one invocation of
    [request_response_reqs] sleeps at most 15 seconds in all. *)
Theorem request_response_reqs_sleeps_at_most_15_seconds P log_id h :
  uniform_in_range P ->
  (0 <= total_sleep (snd (request_response_reqs P log_id h)) <= 15)%Q.
Proof.
  intros Hu.
  pose proof (faithful_request_response_reqs P log_id h) as Hans.
  destruct (request_response_reqs_run P log_id h)
    as (retried & last & Hrun & Hlen & _).
  rewrite Hrun in *. cbn [snd] in *.
  rewrite total_sleep_fetching.
  apply within_expo_at_most_15.
  - exact (fetching_within_expo _ _ _ _ Hu _ _ Hans).
  - rewrite length_map. lia.
Qed.

Lemma mock_uniform_in_range start logs requests responses docs :
  uniform_in_range (Mock.platform start logs requests responses docs).
Proof.
  intros h a b Hab. cbn [random_uniform Mock.platform].
  rewrite inject_Z_plus.
  assert (H : (inject_Z a <= inject_Z b)%Q) by (rewrite <- Zle_Qle; exact Hab).
  split.
  - apply Qle_shift_div_l; lra.
  - apply Qle_shift_div_r; lra.
Qed.

Lemma insights_log_requests_sleeps_at_most_15_seconds_witness :
  (0 <= total_sleep (snd (i_response Mock.never_indexed Mock.session []))
   <= 15)%Q.
Proof.
  apply (insights_log_requests_sleeps_at_most_15_seconds Mock.never_indexed
           Mock.session "GetValuationOfWeightedInstruments" 5 0 []).
  apply mock_uniform_in_range.
Defined.

Lemma request_response_reqs_sleeps_at_most_15_seconds_witness :
  (0 <= total_sleep (snd (request_response_reqs Mock.never_indexed "bad" []))
   <= 15)%Q.
Proof.
  apply (request_response_reqs_sleeps_at_most_15_seconds Mock.never_indexed
           "bad" []).
  apply mock_uniform_in_range.
Defined.

Example never_indexed_sleeps_seven_seconds_and_a_half :
  (total_sleep (snd (i_response Mock.never_indexed Mock.session [])) ==
   15 # 2)%Q.
Proof. vm_compute. reflexivity. Qed.

(** ** The attempts of [request_response_reqs] *)

Lemma response_calls_fetching log_id retried last : forall n,
  response_calls (fetching_events log_id n retried last) =
  repeat log_id (length (filter request_answered (map fst retried ++ [last]))).
Proof.
  induction retried as [|[a s] rest IH]; intros n.
  - destruct last; reflexivity.
  - cbn [fetching_events map fst app filter].
    destruct a; cbn [request_answered length repeat];
      rewrite <- (IH (S n)); reflexivity.
Qed.

Section FetchingBounds.

Variable P : Platform.
Variable log_id : string.
Variable h : Trace.

#[local, warnings="-notation-for-abbreviation"]
Notation run := (request_response_reqs P log_id h).

(** X5. Every invocation of [request_response_reqs] makes at least one and
  at most five attempts and sleeps once between two attempts.  Every
  attempt calls [get_request] again, for the same log; [get_response] is
  called only in the attempts in which [get_request] answered.  The outcome
  is the outcome of the last attempt alone: its pair of bodies, or its
  exception. *)
Theorem request_response_reqs_outcome_is_last_attempt :
(1 <= length (detail_attempts (snd run)) <= 5)%nat
/\ request_calls (snd run) =
   repeat log_id (length (detail_attempts (snd run)))
/\ response_calls (snd run) =
   repeat log_id
     (length (filter request_answered (detail_attempts (snd run))))
/\ map fst (sleeps_after is_get_request 0 (snd run)) =
   seq 1 (length (detail_attempts (snd run)) - 1)
/\ exists a,
     nth_error (detail_attempts (snd run))
       (length (detail_attempts (snd run)) - 1) = Some a
     /\ fst run =
        match a with
        | RequestFailed e => Raised e
        | ResponseFailed _ e => Raised e
        | BothFetched request response => Returned (request, response)
        end.
Proof.
destruct (request_response_reqs_run P log_id h)
  as (retried & last & Hrun & Hlen & Hfailed & _).
rewrite Hrun. cbn [fst snd].
rewrite detail_attempts_fetching, request_calls_fetching,
  response_calls_fetching, sleeps_after_fetching, length_app, length_map.
cbn [length]. replace (length retried + 1 - 1)%nat with (length retried) by lia.
repeat split; try lia.
- f_equal. lia.
- apply map_fst_combine_same_length. rewrite length_seq, length_map.
  reflexivity.
- exists last. split; [|destruct last; reflexivity].
  rewrite nth_error_app2; rewrite length_map; [|lia].
  rewrite Nat.sub_diag. reflexivity.
Qed.

(** X6. An attempt of [request_response_reqs] is the last one exactly when
  it did not raise an [ApiException] (both bodies were fetched, or an
  exception of another class was raised), or it is the fifth attempt.  So
  an [ApiException] of any HTTP status, and not only "not found", is
  retried, and an exception of another class is never retried. *)
Theorem request_response_reqs_stops_exactly_when i a :
nth_error (detail_attempts (snd run)) i = Some a ->
(S i = length (detail_attempts (snd run)) <->
 failed_with is_ApiException a = false \/ i = 4%nat).
Proof.
intros Hnth.
destruct (request_response_reqs_run P log_id h)
  as (retried & last & Hrun & Hlen & Hfailed & Hend).
rewrite Hrun in *. cbn [fst snd] in *.
rewrite detail_attempts_fetching in *.
rewrite length_app, length_map. cbn [length].
assert (Hbound : (i < length (map fst retried ++ [last]))%nat).
{ apply nth_error_Some. congruence. }
rewrite length_app, length_map in Hbound. cbn [length] in Hbound.
destruct (Nat.eq_dec i (length retried)) as [Heq|Hne].
- rewrite nth_error_app2 in Hnth by (rewrite length_map; lia).
  rewrite length_map, Heq, Nat.sub_diag in Hnth. cbn in Hnth.
  injection Hnth as <-. split; [intros _|lia].
  destruct (failed_with is_ApiException last) eqn:Hlast;
    [right|left; reflexivity].
  rewrite Heq. apply Hend. reflexivity.
- rewrite nth_error_app1 in Hnth by (rewrite length_map; lia).
  pose proof (forallb_nth_error _ _ _ _ Hfailed Hnth) as Ha.
  split; [lia|]. intros [Hfalse|Hfour]; [congruence|lia].
Qed.

End FetchingBounds.

Example datetime_range_bounds :
  civil_from_days (-354285) = (1000, 1, 1)
  /\ civil_from_days (2932897 - 1) = (9999, 12, 31)
  /\ in_datetime_range Mock.start = true.
Proof. vm_compute. repeat split; reflexivity. Qed.

Lemma insights_log_requests_outcome_is_last_call_witness :
  (1 <= length
          (search_replies (snd (i_response Mock.slow_index Mock.session [])))
   <= 5)%nat
  /\ map fst
       (sleeps_after is_search 0
          (snd (i_response Mock.slow_index Mock.session []))) =
     seq 1
       (length
          (search_replies (snd (i_response Mock.slow_index Mock.session [])))
        - 1)
  /\ exists r,
       nth_error
         (search_replies (snd (i_response Mock.slow_index Mock.session [])))
         (length
            (search_replies
               (snd (i_response Mock.slow_index Mock.session []))) - 1)
       = Some r
       /\ fst (i_response Mock.slow_index Mock.session []) =
          match r with inr x => Returned x | inl e => Raised e end.
Proof.
  apply (insights_log_requests_outcome_is_last_call Mock.slow_index
           Mock.session "GetValuationOfWeightedInstruments" 5 0 []).
  vm_compute. reflexivity.
Defined.

Lemma insights_log_requests_stops_exactly_when_witness :
  2%nat =
  length (search_replies (snd (i_response Mock.store_down Mock.session []))) <->
  short_reply
    (inl (OtherError "MaxRetryError" "Max retries exceeded")) = false
  \/ 1%nat = 4%nat.
Proof.
  apply (insights_log_requests_stops_exactly_when Mock.store_down Mock.session
           "GetValuationOfWeightedInstruments" 5 0 [] 1
           (inl (OtherError "MaxRetryError" "Max retries exceeded"))).
  vm_compute. reflexivity.
Defined.

Lemma request_response_reqs_stops_exactly_when_witness :
  1%nat =
  length
    (detail_attempts (snd (request_response_reqs Outage.responses_down "ok" [])))
  <->
  failed_with is_ApiException
    (ResponseFailed (mkRequest "{}")
       (OtherError "MaxRetryError" "Max retries exceeded")) = false
  \/ 0%nat = 4%nat.
Proof.
  apply (request_response_reqs_stops_exactly_when Outage.responses_down "ok"
           [] 0
           (ResponseFailed (mkRequest "{}")
              (OtherError "MaxRetryError" "Max retries exceeded"))).
  vm_compute. reflexivity.
Defined.

(** A refusal is retried like "not found": five attempts, and the refusal is
    raised. *)
Example forbidden_is_retried_five_times :
  detail_attempts (snd (request_response_reqs Outage.forbidden "ok" [])) =
    repeat (RequestFailed (ApiException 403 "Forbidden")) 5
  /\ fst (request_response_reqs Outage.forbidden "ok" []) =
     Raised (ApiException 403 "Forbidden").
Proof. vm_compute. split; reflexivity. Qed.

(** ** The runs of [request_response_bodies] *)

Lemma request_response_bodies_loop_BodiesRun P : forall rows rr_bodies h,
  BodiesRun P rows rr_bodies
    (fst (request_response_bodies_loop P rows rr_bodies h))
    (snd (request_response_bodies_loop P rows rr_bodies h)).
Proof.
  induction rows as [|row rest IH]; intros rr_bodies h.
  - cbn. constructor.
  - cbn [request_response_bodies_loop]. rewrite bind_run.
    destruct (request_response_reqs_run P (id row) h)
      as (retried & last & Hrun & Hlen & Hfailed & Hend).
    rewrite Hrun.
    assert (Hok : fetch_ok retried last) by (repeat split; assumption).
    destruct last as [e|request e|request response]; cbn [detail_outcome fst snd];
      try (apply Bodies_raise; [exact Hok|reflexivity]).
    rewrite bind_run, lift_run.
    destruct (json_loads P (request_text request))
      as [e|request_body] eqn:Hrq; cbn [outcome_of fst snd].
    { rewrite ?app_nil_r. apply Bodies_raise; [exact Hok|]. cbn in *.
      rewrite Hrq. reflexivity. }
    rewrite bind_run, lift_run.
    destruct (json_loads P (response_text response))
      as [e|response_body] eqn:Hrs; cbn [outcome_of fst snd].
    { rewrite ?app_nil_r. apply Bodies_raise; [exact Hok|]. cbn in *.
      rewrite Hrq, Hrs. reflexivity. }
    rewrite bind_run, lift_run.
    destruct (classify row request_body response_body) as [e|rr] eqn:Hrr;
      cbn [outcome_of fst snd].
    { rewrite ?app_nil_r. apply Bodies_raise; [exact Hok|]. cbn in *.
      rewrite Hrq, Hrs. exact Hrr. }
    match goal with
    | |- context [request_response_bodies_loop P rest ?acc ?h'] =>
        specialize (IH acc h');
        destruct (request_response_bodies_loop P rest acc h') as [out tr]
    end.
    cbn [fst snd app] in *.
    eapply Bodies_next; [exact Hok| |exact IH].
    cbn in *. rewrite Hrq, Hrs. exact Hrr.
Qed.

Lemma request_calls_app t1 : forall t2,
  request_calls (t1 ++ t2) = request_calls t1 ++ request_calls t2.
Proof.
  induction t1 as [|e t1 IH]; intros t2; [reflexivity|].
  destruct e; cbn; rewrite ?IH; reflexivity.
Qed.

Lemma detail_attempts_fetching_app log_id retried last t : forall n,
  detail_attempts (fetching_events log_id n retried last ++ t) =
  map fst retried ++ [last] ++ detail_attempts t.
Proof.
  unfold detail_attempts.
  induction retried as [|[a s] rest IH]; intros n.
  - destruct last; reflexivity.
  - cbn [fetching_events map fst]. rewrite <- !app_assoc.
    destruct a; cbn; rewrite (IH (S n)); reflexivity.
Qed.

Lemma fetched_pairs_app l1 : forall l2,
  fetched_pairs (l1 ++ l2) = fetched_pairs l1 ++ fetched_pairs l2.
Proof.
  induction l1 as [|a l1 IH]; intros l2; [reflexivity|].
  destruct a; cbn; rewrite ?IH; reflexivity.
Qed.

Lemma fetched_pairs_failed l :
  forallb (failed_with is_ApiException) l = true -> fetched_pairs l = [].
Proof.
  induction l as [|a l IH]; [reflexivity|]. cbn [forallb]. intros H.
  apply andb_true_iff in H as [Ha Hl].
  destruct a; cbn in *; try discriminate; auto.
Qed.

Lemma record_from_returns P row a rr :
  record_from P row a = inr rr ->
  exists request response,
    a = BothFetched request response
    /\ json_loads P (request_text request) = inr (rr_request_body rr)
    /\ json_loads P (response_text response) = inr (rr_response_body rr)
    /\ record_of row rr.
Proof.
  destruct a as [e|request e|request response]; cbn; try discriminate.
  destruct (json_loads P (request_text request)) as [e|request_body] eqn:Hrq;
    [discriminate|].
  destruct (json_loads P (response_text response)) as [e|response_body]
    eqn:Hrs; [discriminate|].
  intros Hrr. exists request, response.
  destruct (classify_returns _ _ _ _ Hrr) as (_ & _ & _ & Hq & Hs).
  rewrite Hrq, Hrs, Hq, Hs. repeat split.
  unfold record_of. rewrite Hq, Hs. exact Hrr.
Qed.

(** X7. [request_response_bodies] goes through the rows in their order: for
    every row it calls [get_request] between one and five times, for the
    identifier of this row, before it turns to the next row.  When the step
    of a row raises, the rows after it are not fetched and nothing is
    returned, the records of the rows before it included; when the function
    returns, every row was fetched and has its record. *)
Theorem request_response_bodies_fetches_row_by_row P req_logs h :
  exists counts : list nat,
    Forall (fun n => 1 <= n <= 5)%nat counts
    /\ request_calls (snd (request_response_bodies P req_logs h)) =
       concat (map (fun p => repeat (id (fst p)) (snd p))
                 (combine (values req_logs) counts))
    /\ match fst (request_response_bodies P req_logs h) with
       | Returned records =>
           length counts = length (values req_logs)
           /\ length records = length (values req_logs)
       | Raised _ => (1 <= length counts <= length (values req_logs))%nat
       | Diverged => False
       end.
Proof.
  unfold request_response_bodies.
  pose proof (request_response_bodies_loop_BodiesRun P (values req_logs) [] h)
    as Hrun.
  revert Hrun.
  generalize (fst (request_response_bodies_loop P (values req_logs) [] h)).
  generalize (snd (request_response_bodies_loop P (values req_logs) [] h)).
  intros tr out Hrun.
  assert (Hgen : exists counts : list nat,
            Forall (fun n => 1 <= n <= 5)%nat counts
            /\ request_calls tr =
               concat (map (fun p => repeat (id (fst p)) (snd p))
                         (combine (values req_logs) counts))
            /\ match out with
               | Returned records =>
                   length counts = length (values req_logs)
                   /\ length records =
                      (length (@nil ResultRecord) + length (values req_logs))%nat
               | Raised _ =>
                   (1 <= length counts <= length (values req_logs))%nat
               | Diverged => False
               end).
  { induction Hrun
      as [rr_bodies
         |row rest rr_bodies retried last e [Hlen _] _
         |row rest rr_bodies retried last rr out tr [Hlen _] _ _ IH].
    - exists []. cbn. repeat split; auto.
    - exists [S (length retried)]. repeat split.
      + constructor; [lia|constructor].
      + rewrite request_calls_fetching. cbn [combine map concat fst snd].
        rewrite combine_nil. cbn. rewrite app_nil_r. reflexivity.
      + cbn. lia.
      + cbn. lia.
    - destruct IH as (counts & Hall & Hcalls & Hout).
      exists (S (length retried) :: counts). repeat split.
      + constructor; [lia|exact Hall].
      + rewrite request_calls_app, request_calls_fetching, Hcalls.
        reflexivity.
      + destruct out as [records|e|]; cbn [length] in *; try lia.
        rewrite length_app in Hout. cbn [length] in Hout. lia. }
  destruct Hgen as (counts & Hall & Hcalls & Hout).
  exists counts. repeat split; auto.
Qed.

(** X8. When [request_response_bodies] returns, the attempts in which both
    bodies were fetched are as many as the rows, one for every row in order
    (a log that is listed twice is fetched twice), and every record holds the
    two bodies of the attempt of its row, parsed by [json.loads]: the bodies
    of an earlier, failed attempt are never used. *)
Theorem request_response_bodies_records_hold_fetched_bodies
    P req_logs h records :
  fst (request_response_bodies P req_logs h) = Returned records ->
  map (fun p => (json_loads P (request_text (fst p)),
                 json_loads P (response_text (snd p))))
      (fetched_pairs
         (detail_attempts (snd (request_response_bodies P req_logs h)))) =
  map (fun r => (inr (rr_request_body r), inr (rr_response_body r))) records
  /\ length records = length (values req_logs).
Proof.
  unfold request_response_bodies.
  pose proof (request_response_bodies_loop_BodiesRun P (values req_logs) [] h)
    as Hrun.
  revert Hrun.
  generalize (fst (request_response_bodies_loop P (values req_logs) [] h)).
  generalize (snd (request_response_bodies_loop P (values req_logs) [] h)).
  intros tr out Hrun Hout. subst out.
  assert (Hgen : forall rows rr_bodies out tr,
            BodiesRun P rows rr_bodies out tr ->
            forall records, out = Returned records ->
            exists added,
              records = rr_bodies ++ added
              /\ length added = length rows
              /\ map (fun p => (json_loads P (request_text (fst p)),
                                json_loads P (response_text (snd p))))
                   (fetched_pairs (detail_attempts tr)) =
                 map (fun r => (inr (rr_request_body r),
                                inr (rr_response_body r))) added).
  { clear. intros rows rr_bodies out tr Hrun.
    induction Hrun
      as [rr_bodies
         |row rest rr_bodies retried last e _ _
         |row rest rr_bodies retried last rr out tr (_ & Hfailed & _) Hrr _ IH];
      intros records Hout.
    - injection Hout as <-. exists []. rewrite app_nil_r. auto.
    - discriminate.
    - destruct (IH records Hout) as (added & -> & Hlen & Hmap).
      exists (rr :: added). rewrite <- app_assoc.
      split; [reflexivity|]. split; [cbn; lia|].
      rewrite detail_attempts_fetching_app, !fetched_pairs_app.
      rewrite (fetched_pairs_failed _ Hfailed).
      destruct (record_from_returns _ _ _ _ Hrr)
        as (request & response & -> & Hq & Hs & _).
      cbn. rewrite Hq, Hs, Hmap. reflexivity. }
  destruct (Hgen _ _ _ _ Hrun records eq_refl) as (added & -> & Hlen & Hmap).
  cbn [app]. split; assumption.
Qed.

(** X9. When both bodies of a log are fetched and [json.loads] raises for the
    request body, or else for the response body, [request_response_bodies]
    raises this exception, whatever the HTTP status of the log, and this
    fetch is its last interaction: no record is returned for any row. *)
Theorem request_response_bodies_raises_decoding_error
    P req_logs h request response e :
  In (BothFetched request response)
     (detail_attempts (snd (request_response_bodies P req_logs h))) ->
  json_loads P (request_text request) = inl e
  \/ ((exists request_body,
         json_loads P (request_text request) = inr request_body)
      /\ json_loads P (response_text response) = inl e) ->
  fst (request_response_bodies P req_logs h) = Raised e
  /\ exists earlier,
       detail_attempts (snd (request_response_bodies P req_logs h)) =
       earlier ++ [BothFetched request response].
Proof.
  unfold request_response_bodies.
  pose proof (request_response_bodies_loop_BodiesRun P (values req_logs) [] h)
    as Hrun.
  revert Hrun.
  generalize (fst (request_response_bodies_loop P (values req_logs) [] h)).
  generalize (snd (request_response_bodies_loop P (values req_logs) [] h)).
  intros tr out Hrun Hin Hdecode.
  assert (Hfrom : forall row,
            record_from P row (BothFetched request response) = inl e).
  { intros row. cbn.
    destruct Hdecode as [Hq|[[request_body Hq] Hs]]; rewrite Hq;
      [reflexivity|]. rewrite Hs. reflexivity. }
  induction Hrun
    as [rr_bodies
       |row rest rr_bodies retried last e' (_ & Hfailed & _) Hlast
       |row rest rr_bodies retried last rr out tr (_ & Hfailed & _) Hrr _ IH].
  - contradiction.
  - rewrite detail_attempts_fetching in *.
    apply in_app_or in Hin as [Hin|[Hin|[]]].
    + rewrite forallb_forall in Hfailed.
      specialize (Hfailed _ Hin). discriminate.
    + subst last. rewrite Hfrom in Hlast. injection Hlast as <-.
      split; [reflexivity|]. exists (map fst retried). reflexivity.
  - rewrite detail_attempts_fetching_app in *.
    apply in_app_or in Hin as [Hin|Hin].
    + rewrite forallb_forall in Hfailed.
      specialize (Hfailed _ Hin). discriminate.
    + cbn [app] in Hin. destruct Hin as [Hin|Hin].
      * subst last. rewrite Hfrom in Hrr. discriminate.
      * destruct (IH Hin) as (Hout & earlier & Hearlier).
        split; [exact Hout|].
        exists (map fst retried ++ last :: earlier).
        rewrite Hearlier, <- app_assoc. reflexivity.
Qed.

Lemma request_response_bodies_records_hold_fetched_bodies_witness :
  map (fun p => (json_loads Mock.four_logs (request_text (fst p)),
                 json_loads Mock.four_logs (response_text (snd p))))
      (fetched_pairs
         (detail_attempts
            (snd (request_response_bodies Mock.four_logs
                    (mkResourceList
                       [Mock.ok_log; Mock.bad_log; Mock.ok_log;
                        Mock.missing_log]) [])))) =
  map (fun r => (inr (rr_request_body r), inr (rr_response_body r)))
      [Mock.ok_record; Mock.bad_record; Mock.ok_record; Mock.missing_record]
  /\ length
       [Mock.ok_record; Mock.bad_record; Mock.ok_record; Mock.missing_record]
     = length [Mock.ok_log; Mock.bad_log; Mock.ok_log; Mock.missing_log].
Proof.
  apply (request_response_bodies_records_hold_fetched_bodies Mock.four_logs
           (mkResourceList
              [Mock.ok_log; Mock.bad_log; Mock.ok_log; Mock.missing_log])
           []).
  vm_compute. reflexivity.
Defined.

Lemma request_response_bodies_raises_decoding_error_witness :
  fst (request_response_bodies Outage.empty_request
         (mkResourceList [Mock.ok_log; Mock.bad_log]) []) =
    Raised (JSONDecodeError "Expecting value")
  /\ exists earlier,
       detail_attempts
         (snd (request_response_bodies Outage.empty_request
                 (mkResourceList [Mock.ok_log; Mock.bad_log]) [])) =
       earlier ++ [BothFetched (mkRequest EmptyString) (mkResponse "{}")].
Proof.
  apply (request_response_bodies_raises_decoding_error Outage.empty_request
           (mkResourceList [Mock.ok_log; Mock.bad_log]) []
           (mkRequest EmptyString) (mkResponse "{}")
           (JSONDecodeError "Expecting value")).
  - vm_compute. left. reflexivity.
  - left. vm_compute. reflexivity.
Defined.

(** ** The two cells together *)

Lemma search_replies_app t1 : forall t2,
  search_replies (t1 ++ t2) = search_replies t1 ++ search_replies t2.
Proof.
  induction t1 as [|e t1 IH]; intros t2; [reflexivity|].
  destruct e; cbn; rewrite ?IH; reflexivity.
Qed.

Lemma search_replies_fetching log_id retried last : forall n,
  search_replies (fetching_events log_id n retried last) = [].
Proof.
  induction retried as [|[a s] rest IH]; intros n.
  - destruct last; reflexivity.
  - cbn [fetching_events]. rewrite !search_replies_app, (IH (S n)).
    destruct a; reflexivity.
Qed.

Lemma search_replies_BodiesRun P rows rr_bodies out tr :
  BodiesRun P rows rr_bodies out tr -> search_replies tr = [].
Proof.
  induction 1; [reflexivity|apply search_replies_fetching|].
  rewrite search_replies_app, search_replies_fetching. assumption.
Qed.

(** X10. When the two cells return the rows of the data frame, the rows are
    the records of the entries of the last answer of the log store, one for
    each entry and in their order; the polling does not raise when it gives
    up, so that fewer than two rows mean that the log store was called five
    times and still had fewer than two entries. *)
Theorem request_bodies_rows_are_the_last_answer P correlation_id h records :
  fst (request_bodies P correlation_id h) = Returned records ->
  exists req_logs,
    nth_error (search_replies (snd (request_bodies P correlation_id h)))
      (length (search_replies (snd (request_bodies P correlation_id h))) - 1)
    = Some (inr req_logs)
    /\ Forall2
         (fun row r =>
            rr_id r = id row /\ rr_timestamp r = timestamp row
            /\ rr_outcome r = outcome row)
         (values req_logs) records
    /\ ((length records < 2)%nat ->
        length (search_replies (snd (request_bodies P correlation_id h))) =
        5%nat).
Proof.
  unfold request_bodies, i_response. rewrite bind_run.
  destruct (insights_log_requests_run P correlation_id
              "GetValuationOfWeightedInstruments" 5 0 h)
    as (retried & last & Hrun & Hlen & Hshort & Hend).
  rewrite Hrun.
  destruct (reply last) as [e|req_logs] eqn:Hlast; cbn [outcome_of];
    [discriminate|].
  unfold request_response_bodies.
  match goal with
  | |- context [request_response_bodies_loop P ?rows ?acc ?h'] =>
      pose proof (request_response_bodies_loop_BodiesRun P rows acc h')
        as Hbodies;
      pose proof (request_response_bodies_loop_run P rows acc h') as Hrecords;
      destruct (request_response_bodies_loop P rows acc h') as [out tr]
  end.
  cbn [fst snd] in *. intros ->.
  rewrite search_replies_app, (search_replies_BodiesRun _ _ _ _ _ Hbodies),
    app_nil_r, search_replies_polling, length_app, length_map.
  cbn [length]. replace (length retried + 1 - 1)%nat with (length retried) by lia.
  destruct Hrecords as (added & -> & Hall). cbn [app].
  exists req_logs. repeat split.
  - rewrite nth_error_app2; rewrite length_map; [|lia].
    rewrite Nat.sub_diag, Hlast. reflexivity.
  - revert Hall. apply Forall2_impl. intros row r Hr.
    destruct (classify_returns _ _ _ _ Hr) as (H1 & H2 & H3 & _). auto.
  - intros Hfew. apply Forall2_length in Hall.
    rewrite Hend; [reflexivity|]. unfold short_reply, too_few.
    apply Nat.ltb_lt. lia.
Qed.

Lemma request_bodies_rows_are_the_last_answer_witness :
  exists req_logs,
    nth_error
      (search_replies
         (snd (request_bodies Outage.one_log_only Mock.session [])))
      (length
         (search_replies
            (snd (request_bodies Outage.one_log_only Mock.session [])))
       - 1)
    = Some (inr req_logs)
    /\ Forall2
         (fun row r =>
            rr_id r = id row /\ rr_timestamp r = timestamp row
            /\ rr_outcome r = outcome row)
         (values req_logs) [Mock.ok_record]
    /\ ((length [Mock.ok_record] < 2)%nat ->
        length
          (search_replies
             (snd (request_bodies Outage.one_log_only Mock.session []))) =
        5%nat).
Proof.
  apply (request_bodies_rows_are_the_last_answer Outage.one_log_only
           Mock.session [] [Mock.ok_record]).
  vm_compute. reflexivity.
Defined.

(** ** The address of the Insights API *)

Example insights_api_url_of_lusid :
  insights_api_url "https://acme.lusid.com/api" =
  "https://acme.lusid.com/insights"%string.
Proof. vm_compute. reflexivity. Qed.

Example rfind_examples :
  rfind "a/b/c" "/" = 3 /\ rfind "abc" "/" = -1 /\ rfind "abc" "bc" = 1
  /\ rfind "abc" EmptyString = 3 /\ rfind "aaa" "aa" = 1.
Proof. vm_compute. repeat split; reflexivity. Qed.

Example slice_to_examples :
  slice_to "hello" 2 = "he"%string /\ slice_to "hello" 0 = EmptyString
  /\ slice_to "hello" 9 = "hello"%string /\ slice_to "hello" (-1) = "hell"%string
  /\ slice_to "hello" (-9) = EmptyString.
Proof. vm_compute. repeat split; reflexivity. Qed.

Lemma rfind_from_no_slash s : forall i,
  no_slash s = true -> rfind_from i s "/" = -1.
Proof.
  induction s as [|c rest IH]; intros i Hno; [reflexivity|].
  cbn [no_slash] in Hno. apply andb_true_iff in Hno as [Hc Hrest].
  cbn [rfind_from]. rewrite (IH _ Hrest). cbn [Z.leb Z.compare prefix].
  destruct (ascii_dec "/" c) as [<-|Hne]; [discriminate Hc|reflexivity].
Qed.

Lemma rfind_from_last_slash base segment : forall i,
  0 <= i ->
  no_slash segment = true ->
  rfind_from i (base ++ String "/" segment) "/" =
  i + Z.of_nat (String.length base).
Proof.
  induction base as [|c base IH]; intros i Hi Hno.
  - cbn [append rfind_from String.length]. rewrite (rfind_from_no_slash _ _ Hno).
    destruct segment; cbn; lia.
  - cbn [append rfind_from String.length]. rewrite (IH (i + 1)) by (lia || auto).
    destruct (Z.leb_spec 0 (i + 1 + Z.of_nat (String.length base))); lia.
Qed.

Lemma substring_whole_prefix a : forall b,
  substring 0 (String.length a) (a ++ b) = a.
Proof.
  induction a as [|c a IH]; intros b; cbn.
  - destruct b; reflexivity.
  - rewrite IH. reflexivity.
Qed.

Lemma length_append a : forall b,
  String.length (a ++ b) = (String.length a + String.length b)%nat.
Proof.
  induction a as [|c a IH]; intros b; cbn; [reflexivity|].
  rewrite IH. reflexivity.
Qed.

Lemma append_assoc a : forall b c, ((a ++ b) ++ c = a ++ (b ++ c))%string.
Proof.
  induction a as [|x a IH]; intros b c; cbn; [reflexivity|].
  rewrite IH. reflexivity.
Qed.

(** X11. The address of the Insights API is the address of the LUSID API
    with its last path segment, the text after its last "/", replaced by
    "insights"; an address that ends with "/" gets "insights" appended. *)
Theorem insights_api_url_replaces_last_segment base segment :
  no_slash segment = true ->
  insights_api_url (base ++ "/" ++ segment) = (base ++ "/insights")%string.
Proof.
  intros Hno. unfold insights_api_url, rfind.
  change ("/" ++ segment)%string with (String "/" segment).
  rewrite (rfind_from_last_slash _ _ 0) by (lia || auto).
  unfold slice_to. rewrite length_append. cbn [String.length].
  destruct (Z.ltb_spec (0 + Z.of_nat (String.length base) + 1) 0); [lia|].
  rewrite Z.min_l by lia.
  replace (Z.to_nat (0 + Z.of_nat (String.length base) + 1))
    with (String.length (base ++ "/")) by (rewrite length_append; cbn; lia).
  change (String "/" segment) with ("/" ++ segment)%string.
  rewrite <- append_assoc, substring_whole_prefix, append_assoc.
  reflexivity.
Qed.

(** X12. For an address without any "/", [rfind] gives -1 and the slice is
    empty: the address of the Insights API is then the bare word "insights",
    and nothing of the given address is kept. *)
Theorem insights_api_url_without_slash url :
  no_slash url = true -> insights_api_url url = "insights"%string.
Proof.
  intros Hno. unfold insights_api_url, rfind.
  rewrite (rfind_from_no_slash _ _ Hno). unfold slice_to. cbn.
  destruct url; reflexivity.
Qed.

Lemma insights_api_url_replaces_last_segment_witness :
  insights_api_url ("https://acme.lusid.com" ++ "/" ++ "api") =
  ("https://acme.lusid.com" ++ "/insights")%string.
Proof.
  apply (insights_api_url_replaces_last_segment "https://acme.lusid.com" "api").
  reflexivity.
Defined.

Lemma insights_api_url_without_slash_witness :
  insights_api_url "localhost" = "insights"%string.
Proof. apply (insights_api_url_without_slash "localhost"). reflexivity. Defined.

(** ** The cell that prints the errors *)

Example print_errors_of_the_failed_valuation :
  print_errors Samples.no_repr [Mock.bad_record] =
  (["For message ID bad, error type InvalidParameterValue was returned for the instruments parameter. The error message was 'must not be empty'"%string],
   None).
Proof. vm_compute. reflexivity. Qed.

Lemma print_errors_none repr records :
  Forall (fun r => rr_error r = JNull) records ->
  print_errors repr records = ([], None).
Proof.
  induction 1 as [|r records Hr _ IH]; [reflexivity|].
  cbn [print_errors]. rewrite Hr. exact IH.
Qed.

Lemma request_response_bodies_record_of P req_logs h records :
  fst (request_response_bodies P req_logs h) = Returned records ->
  Forall2 record_of (values req_logs) records.
Proof.
  intros Hrun. unfold request_response_bodies in Hrun.
  pose proof (request_response_bodies_loop_run P (values req_logs) [] h) as H.
  rewrite Hrun in H. destruct H as (added & -> & Hall). exact Hall.
Qed.

(** X13. When no log has the HTTP status 400, the cell that prints the errors
    prints nothing for the records of [request_response_bodies] and raises
    nothing: a call that failed with another status (404, 500) is not
    reported. *)
Theorem print_errors_is_silent_without_status_400
    P req_logs h records repr :
  fst (request_response_bodies P req_logs h) = Returned records ->
  Forall (fun row => http_status_code row <> 400) (values req_logs) ->
  print_errors repr records = ([], None).
Proof.
  intros Hrun Hstatus. apply print_errors_none.
  pose proof (request_response_bodies_record_of P req_logs h records Hrun)
    as Hall.
  clear Hrun. revert Hstatus. induction Hall as [|row r rows records' Hr _ IH];
    intros Hstatus; [constructor|].
  inversion Hstatus as [|? ? Hrow Hrest]; subst.
  constructor; [|exact (IH Hrest)].
  destruct (classify_error_fields _ _ _ _ Hr) as [_ Hnone].
  exact (proj1 (Hnone Hrow)).
Qed.

Lemma print_errors_app repr before : forall rest,
  snd (print_errors repr before) = None ->
  print_errors repr (before ++ rest) =
  (fst (print_errors repr before) ++ fst (print_errors repr rest),
   snd (print_errors repr rest)).
Proof.
  induction before as [|r before IH]; intros rest Hnone.
  - cbn. destruct (print_errors repr rest). reflexivity.
  - cbn [app print_errors] in *.
    destruct (truthy (rr_error r)); [|exact (IH rest Hnone)].
    destruct (error_line repr r) as [e|line]; [discriminate|].
    destruct (print_errors repr before) as [lines raised] eqn:Hbefore.
    cbn [snd] in Hnone. subst raised.
    rewrite (IH rest eq_refl). reflexivity.
Qed.

(** X14. On a data frame whose errors are all strings, the cell that
    prints the errors stops at the first record that has a non-empty error
    and an empty list of error details in its response body: it raises
    IndexError there.  The lines of the records before it are printed, and
    nothing is printed for this record and those after it. *)
Theorem print_errors_stops_at_empty_error_details repr before r after :
  forallb (fun x => is_string (rr_error x)) (before ++ r :: after) = true ->
  snd (print_errors repr before) = None ->
  truthy (rr_error r) = true ->
  getitem (rr_response_body r) "errorDetails" = inr (JList []) ->
  print_errors repr (before ++ r :: after) =
  (fst (print_errors repr before),
   Some (OtherError "IndexError" "list index out of range")).
Proof.
  intros _ Hbefore Herror Hdetails.
  rewrite (print_errors_app _ _ _ Hbefore).
  cbn [print_errors]. rewrite Herror. unfold error_line. rewrite Hdetails.
  cbn. rewrite app_nil_r. reflexivity.
Qed.

Lemma print_errors_stops_at_empty_error_details_witness :
  print_errors Samples.no_repr
    ([Mock.bad_record] ++ Samples.bare_record :: [Mock.bad_record]) =
  (fst (print_errors Samples.no_repr [Mock.bad_record]),
   Some (OtherError "IndexError" "list index out of range")).
Proof.
  apply (print_errors_stops_at_empty_error_details Samples.no_repr
           [Mock.bad_record] Samples.bare_record [Mock.bad_record]).
  - reflexivity.
  - reflexivity.
  - reflexivity.
  - reflexivity.
Defined.

Lemma print_errors_is_silent_without_status_400_witness :
  print_errors Samples.no_repr [Mock.ok_record; Mock.missing_record] =
  ([], None).
Proof.
  apply (print_errors_is_silent_without_status_400 Mock.four_logs
           (mkResourceList [Mock.ok_log; Mock.missing_log]) []
           [Mock.ok_record; Mock.missing_record] Samples.no_repr).
  - vm_compute. reflexivity.
  - repeat constructor; discriminate.
Defined.
